(** * data_scraper: a shallow embedding of [script/data_scraper.py]

    The script walks the code space 0000..9999, fetches one JSON document per
    code over HTTP, stores the non-empty ones as files and keeps two global
    counters.  Python values are modelled as an inductive type, the global
    variables, the file system, the console and the network trace as one
    record threaded through a state-and-exception monad, and the thread pool
    as a step relation whose steps are the lock-protected sections of the
    source. *)

From Stdlib Require Import ZArith Lia List Ascii String Bool.
From stdpp Require Import base tactics option list relations gmap strings.

Local Open Scope string_scope.
Local Open Scope Z_scope.

(** ** Python strings and integers *)

Module PyStr.

(** [str * n] for a one-character string. *)
Fixpoint repeat_char (c : ascii) (n : nat) : string :=
  match n with
  | O => EmptyString
  | S n' => String c (repeat_char c n')
  end.

(** ['0' + d] for a digit value [d]. *)
Definition digit_char (d : Z) : ascii := ascii_of_nat (48 + Z.to_nat d).

Fixpoint decimal_digits (fuel : nat) (n : Z) (acc : string) : string :=
  match fuel with
  | O => acc
  | S fuel' =>
      let acc' := String (digit_char (n mod 10)) acc in
      if n / 10 =? 0 then acc' else decimal_digits fuel' (n / 10) acc'
  end.

(** [str(n)] for [n >= 0]; a number has at most [log2 n + 1] digits. *)
Definition str_of_nonneg (n : Z) : string :=
  decimal_digits (S (Z.to_nat (Z.log2 n))) n EmptyString.

(** [str(n)]. *)
Definition str_of_int (n : Z) : string :=
  if n <? 0 then String "-" (str_of_nonneg (- n)) else str_of_nonneg n.

(** Left padding with ['0'] up to [width] characters. *)
Definition zero_pad (width : nat) (s : string) : string :=
  repeat_char "0" (width - String.length s) +:+ s.

(** [f"{n:04d}"]: the sign, when there is one, counts in the width. *)
Definition format_04d (n : Z) : string :=
  if n <? 0 then String "-" (zero_pad 3 (str_of_nonneg (- n)))
  else zero_pad 4 (str_of_nonneg n).

(** Decimal parsing of a digit string, optionally signed. *)
Definition digit_value (c : ascii) : option Z :=
  let k := Z.of_nat (nat_of_ascii c) in
  if (48 <=? k) && (k <=? 57) then Some (k - 48) else None.

Fixpoint parse_digits (s : string) (acc : Z) : option Z :=
  match s with
  | EmptyString => Some acc
  | String c s' =>
      match digit_value c with
      | Some d => parse_digits s' (10 * acc + d)
      | None => None
      end
  end.

Definition parse_decimal (s : string) : option Z :=
  match s with
  | EmptyString => None
  | String "-" EmptyString | String "+" EmptyString => None
  | String "-" s' => Z.opp <$> parse_digits s' 0
  | String "+" s' => parse_digits s' 0
  | _ => parse_digits s 0
  end.

(** [range(n)] as the list it enumerates. *)
Definition py_range (n : Z) : list Z := Z.of_nat <$> seq 0 (Z.to_nat n).

(** [len(s)] counts code points; strings are kept in UTF-8, where every
    byte but the continuation bytes [10xxxxxx] starts one. *)
Definition is_continuation (c : ascii) : bool :=
  let k := nat_of_ascii c in (128 <=? k)%nat && (k <? 192)%nat.

Fixpoint py_len_str (s : string) : Z :=
  match s with
  | EmptyString => 0
  | String c s' => (if is_continuation c then 0 else 1) + py_len_str s'
  end.

End PyStr.

(** ** JSON documents as Python values *)

Module Json.
Import PyStr.

(** What [json.loads] can return.  A float keeps the literal it was read
    from: Python holds the binary64 number nearest to it, which the
    classification of a response never inspects. *)
#[local] Unset Elimination Schemes.
Inductive value : Type :=
| PyNone
| PyBool (b : bool)
| PyInt (n : Z)
| PyFloat (literal : string)
| PyStr (s : string)
| PyList (items : list value)
| PyDict (items : list (string * value)).
#[local] Set Elimination Schemes.

(** [type(v).__name__] *)
Definition type_name (v : value) : string :=
  match v with
  | PyNone => "NoneType"
  | PyBool _ => "bool"
  | PyInt _ => "int"
  | PyFloat _ => "float"
  | PyStr _ => "str"
  | PyList _ => "list"
  | PyDict _ => "dict"
  end.

(** [v.__len__()], for the values that have one: strings, lists and
    dicts. *)
Definition len (v : value) : option Z :=
  match v with
  | PyStr s => Some (py_len_str s)
  | PyList xs => Some (Z.of_nat (length xs))
  | PyDict kvs => Some (Z.of_nat (length kvs))
  | _ => None
  end.

(** A value that has any elements. *)
Definition has_elements (v : value) : bool :=
  match len v with
  | Some n => negb (n =? 0)
  | None => false
  end.

Definition ord (c : ascii) : Z := Z.of_nat (nat_of_ascii c).
Definition chr (k : Z) : ascii := ascii_of_nat (Z.to_nat k).

Definition dquote : ascii := chr 34.
Definition backslash : ascii := chr 92.

(** *** Decoding, after [json.decoder] and [json.scanner] *)

Definition is_ws (c : ascii) : bool :=
  let k := ord c in (k =? 32) || (k =? 9) || (k =? 10) || (k =? 13).

Fixpoint skip_ws (s : string) : string :=
  match s with
  | String c s' => if is_ws c then skip_ws s' else s
  | EmptyString => s
  end.

Definition is_digit (c : ascii) : bool := (48 <=? ord c) && (ord c <=? 57).

(** The longest prefix of digits, and what follows it. *)
Fixpoint span_digits (s : string) : string * string :=
  match s with
  | String c s' =>
      if is_digit c then let '(d, r) := span_digits s' in (String c d, r)
      else (EmptyString, s)
  | EmptyString => (EmptyString, EmptyString)
  end.

Definition hex_value (c : ascii) : option Z :=
  let k := ord c in
  if (48 <=? k) && (k <=? 57) then Some (k - 48)
  else if (65 <=? k) && (k <=? 70) then Some (k - 55)
  else if (97 <=? k) && (k <=? 102) then Some (k - 87)
  else None.

(** The four hex digits of a [\uXXXX] escape. *)
Definition hex4 (s : string) : option (Z * string) :=
  match s with
  | String a (String b (String c (String d r))) =>
      match hex_value a, hex_value b, hex_value c, hex_value d with
      | Some x, Some y, Some z, Some w => Some (4096 * x + 256 * y + 16 * z + w, r)
      | _, _, _, _ => None
      end
  | _ => None
  end.

(** [chr(u)] in (generalised) UTF-8. *)
Definition utf8 (u : Z) : string :=
  if u <? 128 then String (chr u) EmptyString
  else if u <? 2048 then
    String (chr (192 + u / 64)) (String (chr (128 + u mod 64)) EmptyString)
  else if u <? 65536 then
    String (chr (224 + u / 4096))
      (String (chr (128 + (u / 64) mod 64))
         (String (chr (128 + u mod 64)) EmptyString))
  else
    String (chr (240 + u / 262144))
      (String (chr (128 + (u / 4096) mod 64))
         (String (chr (128 + (u / 64) mod 64))
            (String (chr (128 + u mod 64)) EmptyString))).

(** The one-character escapes of [BACKSLASH]. *)
Definition unescape (c : ascii) : option ascii :=
  let k := ord c in
  if k =? 34 then Some dquote
  else if k =? 92 then Some backslash
  else if k =? 47 then Some (chr 47)
  else if k =? 98 then Some (chr 8)
  else if k =? 102 then Some (chr 12)
  else if k =? 110 then Some (chr 10)
  else if k =? 114 then Some (chr 13)
  else if k =? 116 then Some (chr 9)
  else None.

(** [py_scanstring] in strict mode, from the character after the opening
    quote: the decoded string and the input left after the closing quote. *)
Fixpoint scanstring (fuel : nat) (s : string) (acc : string) : option (string * string) :=
  match fuel with
  | O => None
  | S fuel' =>
      match s with
      | EmptyString => None
      | String c s' =>
          if ord c =? 34 then Some (acc, s')
          else if ord c =? 92 then
            match s' with
            | EmptyString => None
            | String e s'' =>
                if ord e =? 117 then
                  match hex4 s'' with
                  | None => None
                  | Some (u, r) =>
                      let pair :=
                        if (55296 <=? u) && (u <=? 56319) then
                          match r with
                          | String b (String x r') =>
                              if (ord b =? 92) && (ord x =? 117) then
                                match hex4 r' with
                                | Some (u2, r2) =>
                                    if (56320 <=? u2) && (u2 <=? 57343)
                                    then Some (65536 + (u - 55296) * 1024 + (u2 - 56320), r2)
                                    else None
                                | None => None
                                end
                              else None
                          | _ => None
                          end
                        else None in
                      match pair with
                      | Some (u', r') => scanstring fuel' r' (acc +:+ utf8 u')
                      | None => scanstring fuel' r (acc +:+ utf8 u)
                      end
                  end
                else
                  match unescape e with
                  | Some ch => scanstring fuel' s'' (acc +:+ String ch EmptyString)
                  | None => None
                  end
            end
          else if ord c <? 32 then None
          else scanstring fuel' s' (acc +:+ String c EmptyString)
      end
  end.

(** [NUMBER_RE]: an optional minus sign, then [0] or a digit string that
    does not start with [0]; then, each optional, a fraction (a dot and
    digits) and an exponent ([e] or [E], an optional sign, digits). *)
Definition scan_integer (s : string) : option (string * string) :=
  let '(sign, body) :=
    match s with
    | String c s' => if ord c =? 45 then (String c EmptyString, s') else (EmptyString, s)
    | EmptyString => (EmptyString, s)
    end in
  match body with
  | String c r =>
      if ord c =? 48 then Some (sign +:+ String c EmptyString, r)
      else if is_digit c then let '(d, r') := span_digits body in Some (sign +:+ d, r')
      else None
  | EmptyString => None
  end.

Definition scan_frac (s : string) : string * string :=
  match s with
  | String c s' =>
      if ord c =? 46 then
        match span_digits s' with
        | (EmptyString, _) => (EmptyString, s)
        | (d, r) => (String c d, r)
        end
      else (EmptyString, s)
  | EmptyString => (EmptyString, s)
  end.

Definition scan_exp (s : string) : string * string :=
  match s with
  | String c s' =>
      if (ord c =? 101) || (ord c =? 69) then
        let '(sign, body) :=
          match s' with
          | String g s'' =>
              if (ord g =? 45) || (ord g =? 43) then (String g EmptyString, s'')
              else (EmptyString, s')
          | EmptyString => (EmptyString, s')
          end in
        match span_digits body with
        | (EmptyString, _) => (EmptyString, s)
        | (d, r) => (String c (sign +:+ d), r)
        end
      else (EmptyString, s)
  | EmptyString => (EmptyString, s)
  end.

Definition scan_number (s : string) : option (value * string) :=
  match scan_integer s with
  | None => None
  | Some (integer, r) =>
      let '(frac, r1) := scan_frac r in
      let '(exp, r2) := scan_exp r1 in
      match frac, exp with
      | EmptyString, EmptyString =>
          match parse_decimal integer with
          | Some n => Some (PyInt n, r2)
          | None => None
          end
      | _, _ => Some (PyFloat (integer +:+ frac +:+ exp), r2)
      end
  end.

(** [s.startswith(word)], with what follows the word. *)
Fixpoint strip_prefix (word s : string) : option string :=
  match word, s with
  | EmptyString, _ => Some s
  | String a word', String b s' => if Ascii.eqb a b then strip_prefix word' s' else None
  | String _ _, EmptyString => None
  end.

Definition scan_constant (s : string) : option (value * string) :=
  match strip_prefix "null" s with
  | Some r => Some (PyNone, r)
  | None =>
  match strip_prefix "true" s with
  | Some r => Some (PyBool true, r)
  | None =>
  match strip_prefix "false" s with
  | Some r => Some (PyBool false, r)
  | None =>
  match scan_number s with
  | Some res => Some res
  | None =>
  match strip_prefix "NaN" s with
  | Some r => Some (PyFloat "NaN", r)
  | None =>
  match strip_prefix "Infinity" s with
  | Some r => Some (PyFloat "Infinity", r)
  | None =>
  match strip_prefix "-Infinity" s with
  | Some r => Some (PyFloat "-Infinity", r)
  | None => None
  end end end end end end end.

(** [dict(pairs)]: a repeated key keeps its first place and takes the
    last value. *)
Fixpoint dict_set (k : string) (v : value) (d : list (string * value)) : list (string * value) :=
  match d with
  | [] => [(k, v)]
  | (k', v') :: d' => if String.eqb k k' then (k, v) :: d' else (k', v') :: dict_set k v d'
  end.

(** [scan_once], [JSONArray] and [JSONObject]. *)
Fixpoint scan_once (fuel : nat) (s : string) : option (value * string) :=
  match fuel with
  | O => None
  | S fuel' =>
      match s with
      | EmptyString => None
      | String c s' =>
          if ord c =? 34 then
            match scanstring (S (String.length s')) s' EmptyString with
            | Some (str, r) => Some (PyStr str, r)
            | None => None
            end
          else if ord c =? 123 then
            match skip_ws s' with
            | String c1 r1 =>
                if ord c1 =? 125 then Some (PyDict [], r1)
                else if ord c1 =? 34 then scan_members fuel' r1 []
                else None
            | EmptyString => None
            end
          else if ord c =? 91 then
            match skip_ws s' with
            | String c1 r1 =>
                if ord c1 =? 93 then Some (PyList [], r1)
                else scan_items fuel' (String c1 r1) []
            | EmptyString => None
            end
          else scan_constant s
      end
  end
with scan_items (fuel : nat) (s : string) (acc : list value) : option (value * string) :=
  match fuel with
  | O => None
  | S fuel' =>
      match scan_once fuel' s with
      | None => None
      | Some (v, r) =>
          match skip_ws r with
          | String c r1 =>
              if ord c =? 93 then Some (PyList (acc ++ [v]), r1)
              else if ord c =? 44 then scan_items fuel' (skip_ws r1) (acc ++ [v])
              else None
          | EmptyString => None
          end
      end
  end
with scan_members (fuel : nat) (s : string) (acc : list (string * value)) : option (value * string) :=
  match fuel with
  | O => None
  | S fuel' =>
      match scanstring (S (String.length s)) s EmptyString with
      | None => None
      | Some (key, r) =>
          match skip_ws r with
          | String c r1 =>
              if ord c =? 58 then
                match scan_once fuel' (skip_ws r1) with
                | None => None
                | Some (v, r2) =>
                    match skip_ws r2 with
                    | String c2 r3 =>
                        if ord c2 =? 125 then Some (PyDict (dict_set key v acc), r3)
                        else if ord c2 =? 44 then
                          match skip_ws r3 with
                          | String c3 r4 =>
                              if ord c3 =? 34 then scan_members fuel' r4 (dict_set key v acc)
                              else None
                          | EmptyString => None
                          end
                        else None
                    | EmptyString => None
                    end
                end
              else None
          | EmptyString => None
          end
      end
  end.

(** [json.loads(s)]; [None] stands for [JSONDecodeError]. *)
Definition loads (s : string) : option value :=
  match strip_prefix (utf8 65279) s with
  | Some _ => None
  | None =>
      match scan_once (2 * String.length s + 2) (skip_ws s) with
      | Some (v, r) =>
          match skip_ws r with
          | EmptyString => Some v
          | String _ _ => None
          end
      | None => None
      end
  end.

(** *** Encoding, after [json.encoder] with [ensure_ascii=False] and
    [indent=2] *)

Definition hex_digit (d : Z) : ascii :=
  if d <? 10 then chr (48 + d) else chr (87 + d).

(** One character of a string as the encoder writes it: the quote, the
    backslash and the control characters are escaped, every other
    character, the non-ASCII ones among them, is written as it is. *)
Definition escape_char (c : ascii) : string :=
  let k := ord c in
  if k =? 34 then String backslash (String dquote EmptyString)
  else if k =? 92 then String backslash (String backslash EmptyString)
  else if k =? 10 then String backslash "n"
  else if k =? 13 then String backslash "r"
  else if k =? 9 then String backslash "t"
  else if k =? 8 then String backslash "b"
  else if k =? 12 then String backslash "f"
  else if k <? 32 then
    String backslash ("u00" +:+ String (hex_digit (k / 16)) (String (hex_digit (k mod 16)) EmptyString))
  else String c EmptyString.

Fixpoint escape (s : string) : string :=
  match s with
  | EmptyString => EmptyString
  | String c s' => escape_char c +:+ escape s'
  end.

(** [encode_basestring] *)
Definition encode_str (s : string) : string :=
  String dquote (escape s +:+ String dquote EmptyString).

(** ['\n' + ' ' * (indent * level)] *)
Definition newline_indent (indent level : nat) : string :=
  String (chr 10) (repeat_char " " (indent * level)).

Section Encoder.
(** [float.__repr__] of the number a literal denotes. *)
Variable float_repr : string -> string.
Variable indent : nat.

(** [_iterencode], with the chunks already joined. *)
Fixpoint encode (level : nat) (v : value) : string :=
  match v with
  | PyNone => "null"
  | PyBool true => "true"
  | PyBool false => "false"
  | PyInt n => str_of_int n
  | PyFloat lit => float_repr lit
  | PyStr s => encode_str s
  | PyList [] => "[]"
  | PyList xs =>
      "[" +:+ newline_indent indent (S level)
      +:+ String.concat ("," +:+ newline_indent indent (S level))
            (List.map (encode (S level)) xs)
      +:+ newline_indent indent level +:+ "]"
  | PyDict [] => "{}"
  | PyDict kvs =>
      "{" +:+ newline_indent indent (S level)
      +:+ String.concat ("," +:+ newline_indent indent (S level))
            (List.map (fun kv => encode_str (fst kv) +:+ ": " +:+ encode (S level) (snd kv)) kvs)
      +:+ newline_indent indent level +:+ "}"
  end.
End Encoder.

(** The text [json.dump(data, f, ensure_ascii=False, indent=2)] writes. *)
Definition dump_indent2 (float_repr : string -> string) (data : value) : string :=
  encode float_repr 2 0 data.

End Json.

(** ** Exceptions, the world and the monad of a Python computation *)

(** What [requests.get] raises: every such exception is a
    [requests.RequestException]. *)
Inductive transport_error : Type :=
| ConnectionError
| Timeout
| OtherRequestException.

Inductive exn : Type :=
| RequestException (kind : transport_error)
| JSONDecodeError
| TypeError (msg : string).

(** [str(e)], as [main] prints it.  Of the exceptions of the model only a
    [TypeError] reaches [main]; the other texts stand for the library's. *)
Definition exn_message (e : exn) : string :=
  match e with
  | RequestException ConnectionError => "connection error"
  | RequestException Timeout => "timed out"
  | RequestException OtherRequestException => "request failed"
  | JSONDecodeError => "Expecting value"
  | TypeError msg => msg
  end.

Inductive result (A : Type) : Type :=
| Return (a : A)
| Raise (e : exn).
Arguments Return {A} a.
Arguments Raise {A} e.

Record Request : Type := MkRequest {
  url : string;
  headers : list (string * string);
  timeout : Z
}.

Record Response : Type := MkResponse {
  status_code : Z;
  response_headers : list (string * string);
  text : string
}.

Record File : Type := MkFile {
  encoding : string;
  contents : string
}.

(** The module globals [successful] and [failed], and what the program can
    reach outside itself: the directories made, the files written, the lines
    printed and the requests sent. *)
Record World : Type := MkWorld {
  successful : Z;
  failed : Z;
  dirs : gset string;
  files : gmap string File;
  stdout : list string;
  network : list Request
}.

Definition set_successful (n : Z) (w : World) : World :=
  MkWorld n (failed w) (dirs w) (files w) (stdout w) (network w).
Definition set_failed (n : Z) (w : World) : World :=
  MkWorld (successful w) n (dirs w) (files w) (stdout w) (network w).
Definition add_dir (d : string) (w : World) : World :=
  MkWorld (successful w) (failed w) ({[d]} ∪ dirs w) (files w) (stdout w) (network w).
Definition put_file (name : string) (f : File) (w : World) : World :=
  MkWorld (successful w) (failed w) (dirs w) (<[name := f]> (files w)) (stdout w) (network w).
Definition put_line (line : string) (w : World) : World :=
  MkWorld (successful w) (failed w) (dirs w) (files w) (stdout w ++ [line]) (network w).
Definition put_request (r : Request) (w : World) : World :=
  MkWorld (successful w) (failed w) (dirs w) (files w) (stdout w) (network w ++ [r]).

(** A computation reads and changes the world, and returns or raises. *)
Definition M (A : Type) : Type := World -> result A * World.

Definition ret {A} (a : A) : M A := fun w => (Return a, w).
Definition raise {A} (e : exn) : M A := fun w => (Raise e, w).
Definition bind {A B} (m : M A) (k : A -> M B) : M B :=
  fun w =>
    match m w with
    | (Return a, w') => k a w'
    | (Raise e, w') => (Raise e, w')
    end.

(** [try: body except classes: handler], with [catches] telling whether the
    exception is an instance of one of the listed classes. *)
Definition try_except {A} (body : M A) (catches : exn -> bool) (handler : exn -> M A) : M A :=
  fun w =>
    match body w with
    | (Return a, w') => (Return a, w')
    | (Raise e, w') => if catches e then handler e w' else (Raise e, w')
    end.

Notation "x <- m ;; k" := (bind m (fun x => k))
  (at level 100, m at next level, right associativity).
Notation "m ;;; k" := (bind m (fun _ => k))
  (at level 100, right associativity).

(** [global x; x += 1] and reading a global. *)
Definition get {A} (field : World -> A) : M A := fun w => (Return (field w), w).
Definition modify (f : World -> World) : M unit := fun w => (Return tt, f w).

Definition print (line : string) : M unit := modify (put_line line).

(** The two module-level locks.  A [with lock:] block runs its body; that the
    block is one indivisible step for the other threads is what the step
    relation of the pool expresses. *)
Inductive lock : Type := write_lock | counter_lock.
Definition with_lock {A} (l : lock) (body : M A) : M A := body.

(** [len(v)] *)
Definition py_len (v : Json.value) : M Z :=
  match Json.len v with
  | Some n => ret n
  | None => raise (TypeError ("object of type '" +:+ Json.type_name v +:+ "' has no len()"))
  end.

(** [v is not None] *)
Definition is_not_None (v : Json.value) : bool :=
  match v with
  | Json.PyNone => false
  | _ => true
  end.

(** [os.path.join(a, b)] on a POSIX system. *)
Definition ends_with_slash (s : string) : bool :=
  match String.get (String.length s - 1) s with
  | Some c => Ascii.eqb c "/"
  | None => false
  end.

Definition os_path_join (a b : string) : string :=
  match b with
  | String "/" _ => b
  | _ => if (String.length a =? 0)%nat || ends_with_slash a then a +:+ b else a +:+ "/" +:+ b
  end.

(** [os.makedirs(d, exist_ok=True)] *)
Definition os_makedirs (d : string) : M unit := modify (add_dir d).

(** [with open(filename, 'w', encoding=enc) as f: f.write(body)]: the file is
    created or replaced.  The directory is the one [main] has made; the
    failures of a disk are not part of the model. *)
Definition write_text (filename enc body : string) : M unit :=
  modify (put_file filename (MkFile enc body)).

(** ** The script *)

Section Scraper.

(** The remote service: what a request meets, an error of the transport or
    a response.  One run sends one request per code, so a function of the
    request describes any mix of answers. *)
Variable server : Request -> transport_error + Response.

(** [float.__repr__] on the literal of a float, for [json.dump]. *)
Variable float_repr : string -> string.

(** [multiprocessing.cpu_count()] *)
Variable cpu_count : Z.

(** [requests.get(url, headers=headers, timeout=timeout)] *)
Definition requests_get (url : string) (headers : list (string * string)) (timeout : Z)
  : M Response :=
  fun w =>
    let request := MkRequest url headers timeout in
    match server request with
    | inl e => (Raise (RequestException e), put_request request w)
    | inr response => (Return response, put_request request w)
    end.

(** [response.json()] *)
Definition response_json (response : Response) : M Json.value :=
  match Json.loads (text response) with
  | Some data => ret data
  | None => raise JSONDecodeError
  end.

Definition request_url (code : string) : string :=
  "https://graduacao.ufms.br/portal/matriz/get-pre-requisitos/" +:+ code.

Definition request_headers (code : string) : list (string * string) :=
  [ ("Accept", "application/json");
    ("Accept-Language", "en-US,en;q=0.5");
    ("Accept-Encoding", "gzip, deflate, br, zstd");
    ("X-Requested-With", "XMLHttpRequest");
    ("Sec-GPC", "1");
    ("Connection", "keep-alive");
    ("Referer", "https://graduacao.ufms.br/cursos/" +:+ code +:+ "/matriz");
    ("Sec-Fetch-Dest", "empty");
    ("Sec-Fetch-Mode", "cors");
    ("Sec-Fetch-Site", "same-origin");
    ("Pragma", "no-cache");
    ("Cache-Control", "no-cache") ].

(** [except (requests.RequestException, json.JSONDecodeError)] *)
Definition is_request_or_decode_error (e : exn) : bool :=
  match e with
  | RequestException _ | JSONDecodeError => true
  | TypeError _ => false
  end.

Definition fetch_course_data (code : string) : M Json.value :=
  let url := request_url code in
  let headers := request_headers code in
  try_except
    (response <- requests_get url headers 10 ;;
     if status_code response =? 200 then
       data <- response_json response ;;
       n <- py_len data ;;
       if n =? 0 then ret Json.PyNone
       else ret data
     else ret Json.PyNone)
    is_request_or_decode_error
    (fun e => ret Json.PyNone).

(** The three lock-protected blocks of [process_code]. *)
Definition save_json (filename : string) (data : Json.value) : M unit :=
  with_lock write_lock
    (write_text filename "utf-8" (Json.dump_indent2 float_repr data)).

Definition count_success (code filename : string) : M unit :=
  with_lock counter_lock
    (n <- get successful ;;
     modify (set_successful (n + 1)) ;;;
     print ("✓ " +:+ code +:+ ": Saved to " +:+ filename)).

Definition count_failure (code_num : Z) (code : string) : M unit :=
  with_lock counter_lock
    (n <- get failed ;;
     modify (set_failed (n + 1)) ;;;
     if code_num mod 100 =? 0 then
       s <- get successful ;;
       f <- get failed ;;
       print ("✗ Progress: " +:+ code +:+ " (Success: " +:+ PyStr.str_of_int s
              +:+ ", Failed: " +:+ PyStr.str_of_int f +:+ ")")
     else ret tt).

Definition process_code (code_num : Z) (output_dir : string) : M (string * bool) :=
  let code := PyStr.format_04d code_num in
  data <- fetch_course_data code ;;
  if is_not_None data then
    let filename := os_path_join output_dir (code +:+ ".json") in
    save_json filename data ;;;
    count_success code filename ;;;
    ret (code, true)
  else
    count_failure code_num code ;;;
    ret (code, false).

(** *** The thread pool

    A submitted call of [process_code] advances in steps: the fetch, which
    holds no lock, then the blocks under [write_lock] and [counter_lock].
    A step of the pool is one such step of one task, or the main thread
    taking a completed future out of [as_completed].  The number of
    workers only limits which interleavings happen; all of them are
    interleavings of these steps. *)

Inductive task : Type :=
| Pending
| Fetched (code : string) (data : Json.value)
| Saved (code filename : string)
| Done (outcome : result (string * bool)).

Definition task_step (code_num : Z) (output_dir : string) (t : task) (w : World)
  : task * World :=
  match t with
  | Pending =>
      let code := PyStr.format_04d code_num in
      match fetch_course_data code w with
      | (Return data, w') => (Fetched code data, w')
      | (Raise e, w') => (Done (Raise e), w')
      end
  | Fetched code data =>
      if is_not_None data then
        let filename := os_path_join output_dir (code +:+ ".json") in
        (Saved code filename, snd (save_json filename data w))
      else
        (Done (Return (code, false)), snd (count_failure code_num code w))
  | Saved code filename =>
      (Done (Return (code, true)), snd (count_success code filename w))
  | Done _ => (t, w)
  end.

Definition is_done (t : task) : bool :=
  match t with
  | Done _ => true
  | _ => false
  end.

Record future : Type := MkFuture {
  code_num : Z;
  state : task;
  collected : bool
}.

Record pool : Type := MkPool {
  futures : list future;
  world : World
}.

(** [futures = [executor.submit(process_code, code_num, output_dir)
                for code_num in range(10000)]] *)
Definition submit_all (w : World) : pool :=
  MkPool ((fun c => MkFuture c Pending false) <$> PyStr.py_range 10000) w.

(** The body of the [as_completed] loop for one future. *)
Definition collect (outcome : result (string * bool)) : M unit :=
  match outcome with
  | Return _ => ret tt
  | Raise e => print ("Error processing code: " +:+ exn_message e)
  end.

Inductive step (output_dir : string) (p : pool) : pool -> Prop :=
| step_task i fut :
    futures p !! i = Some fut ->
    is_done (state fut) = false ->
    step output_dir p
      (MkPool
         (<[i := MkFuture (code_num fut)
                   (fst (task_step (code_num fut) output_dir (state fut) (world p)))
                   (collected fut)]> (futures p))
         (snd (task_step (code_num fut) output_dir (state fut) (world p))))
| step_collect i fut outcome :
    futures p !! i = Some fut ->
    state fut = Done outcome ->
    collected fut = false ->
    step output_dir p
      (MkPool
         (<[i := MkFuture (code_num fut) (state fut) true]> (futures p))
         (snd (collect outcome (world p)))).

(** The executor has shut down and the loop has seen every future. *)
Definition all_collected (p : pool) : Prop :=
  Forall (fun fut => is_done (state fut) = true /\ collected fut = true) (futures p).

Definition output_dir : string := "json".

(** [main] up to the [with ThreadPoolExecutor(...)] block. *)
Definition main_prologue : M unit :=
  os_makedirs output_dir ;;;
  let num_threads := cpu_count in
  print "Starting to fetch course data from 0000 to 9999..." ;;;
  print ("Output directory: " +:+ output_dir +:+ "/") ;;;
  print ("Using " +:+ PyStr.str_of_int num_threads +:+ " threads") ;;;
  print (PyStr.repeat_char "-" 50) ;;;
  modify (set_successful 0) ;;;
  modify (set_failed 0).

(** [main] after the block. *)
Definition main_epilogue : M unit :=
  print (PyStr.repeat_char "-" 50) ;;;
  print "Completed!" ;;;
  s <- get successful ;;
  print ("Successful: " +:+ PyStr.str_of_int s) ;;;
  f <- get failed ;;
  print ("Failed: " +:+ PyStr.str_of_int f) ;;;
  s' <- get successful ;;
  f' <- get failed ;;
  print ("Total processed: " +:+ PyStr.str_of_int (s' + f')).

(** The runs of [main]: the world it starts in and the world it leaves. *)
Definition main_run (w0 w : World) : Prop :=
  exists p,
    rtc (step output_dir) (submit_all (snd (main_prologue w0))) p
    /\ all_collected p
    /\ w = snd (main_epilogue (world p)).

(** One of these runs, which a pool of a single worker performs: each task
    runs to its end and is collected before the next one starts. *)
Definition run_task (code_num : Z) : M unit :=
  fun w =>
    match process_code code_num output_dir w with
    | (outcome, w') => collect outcome w'
    end.

Fixpoint run_tasks (codes : list Z) : M unit :=
  match codes with
  | [] => ret tt
  | c :: codes' => run_task c ;;; run_tasks codes'
  end.

Definition main : M unit :=
  main_prologue ;;;
  run_tasks (PyStr.py_range 10000) ;;;
  main_epilogue.

(** The request [fetch_course_data] sends for a code, and what it gives
    back, which does not depend on the world. *)
Definition request_for (code : string) : Request :=
  MkRequest (request_url code) (request_headers code) 10.

Definition fetch_result (code : string) : result Json.value :=
  fst (fetch_course_data code (MkWorld 0 0 ∅ ∅ [] [])).

(** *** The run, as the proofs look at it *)

(** The lines [process_code] prints, and the path it writes to. *)
Definition success_line (code filename : string) : string :=
  "✓ " +:+ code +:+ ": Saved to " +:+ filename.

Definition progress_line (code : string) (s f : Z) : string :=
  "✗ Progress: " +:+ code +:+ " (Success: " +:+ PyStr.str_of_int s
  +:+ ", Failed: " +:+ PyStr.str_of_int f +:+ ")".

Definition json_path (output_dir code : string) : string :=
  os_path_join output_dir (code +:+ ".json").

(** The steps of a task, taken one after the other, are the call. *)
Definition run_to_end (code_num : Z) (output_dir : string) (w : World) : task * World :=
  let '(t1, w1) := task_step code_num output_dir Pending w in
  let '(t2, w2) := task_step code_num output_dir t1 w1 in
  task_step code_num output_dir t2 w2.

(** The three ways the call for a code can end. *)
Definition present (c : Z) : bool :=
  match fetch_result (PyStr.format_04d c) with
  | Return data => is_not_None data
  | Raise _ => false
  end.

Definition absent (c : Z) : bool :=
  match fetch_result (PyStr.format_04d c) with
  | Return data => negb (is_not_None data)
  | Raise _ => false
  end.

Definition raises (c : Z) : bool :=
  match fetch_result (PyStr.format_04d c) with
  | Return _ => false
  | Raise _ => true
  end.

(** A task has been counted once it has left its [counter_lock] block. *)
Definition counted_success (fut : future) : nat :=
  match state fut with
  | Done (Return (_, true)) => 1
  | _ => 0
  end.

Definition counted_failure (fut : future) : nat :=
  match state fut with
  | Done (Return (_, false)) => 1
  | _ => 0
  end.

(** The state of a task agrees with what the fetch gives for its code. *)
Definition consistent (fut : future) : Prop :=
  let code := PyStr.format_04d (code_num fut) in
  match state fut with
  | Pending => True
  | Fetched c data => c = code /\ fetch_result code = Return data
  | Saved c _ => c = code /\ present (code_num fut) = true
  | Done (Return (_, true)) => present (code_num fut) = true
  | Done (Return (_, false)) => absent (code_num fut) = true
  | Done (Raise _) => raises (code_num fut) = true
  end.

(** What holds of the pool after any number of steps. *)
Record pool_inv (codes : list Z) (p : pool) : Prop := MkPoolInv {
  inv_codes : code_num <$> futures p = codes;
  inv_consistent : Forall consistent (futures p);
  inv_successful :
    successful (world p) = Z.of_nat (sum_list_with counted_success (futures p));
  inv_failed :
    failed (world p) = Z.of_nat (sum_list_with counted_failure (futures p))
}.

Definition done_collected (fut : future) : Prop :=
  is_done (state fut) = true /\ collected fut = true.



(** *** What a run leaves outside the counters *)

(** The request of a task that has started. *)
Definition sent (fut : future) : list Request :=
  match state fut with
  | Pending => []
  | _ => [request_for (PyStr.format_04d (code_num fut))]
  end.

(** The task has left its [write_lock] block. *)
Definition has_written (fut : future) : bool :=
  match state fut with
  | Saved _ _ | Done (Return (_, true)) => true
  | _ => false
  end.

(** The file [process_code] writes for a code, when it writes one. *)
Definition saved_file (c : Z) : option File :=
  match fetch_result (PyStr.format_04d c) with
  | Return data =>
      if is_not_None data
      then Some (MkFile "utf-8" (Json.dump_indent2 float_repr data))
      else None
  | Raise _ => None
  end.

(** The path of the file of a code in [main]'s directory. *)
Definition code_path (c : Z) : string :=
  json_path output_dir (PyStr.format_04d c).

(** The lines a future has caused so far: the success line, the progress
    line of an absent multiple of 100, or the error line the main thread
    prints when it collects a call that raised. *)
Definition lines_printed (fut : future) : nat :=
  match state fut with
  | Done (Return (_, true)) => 1
  | Done (Return (_, false)) => if code_num fut mod 100 =? 0 then 1 else 0
  | Done (Raise _) => if collected fut then 1 else 0
  | _ => 0
  end.

(** The files against the futures: the file of a task that has written is
    the file of its code, and a path that is the path of no such task holds
    what it held in the world [w0] the pool started in. *)
Definition files_inv (w0 : World) (futs : list future) (fs : gmap string File) : Prop :=
  (forall i fut,
     futs !! i = Some fut -> has_written fut = true ->
     fs !! code_path (code_num fut) = saved_file (code_num fut))
  /\ (forall path,
        (forall i fut,
           futs !! i = Some fut -> has_written fut = true ->
           code_path (code_num fut) <> path) ->
        fs !! path = files w0 !! path).

(** What holds, after any number of steps, of the requests sent, the lines
    printed, the directories and the files. *)
Record trace_inv (w0 : World) (p : pool) : Prop := MkTraceInv {
  trace_collected :
    Forall (fun fut => collected fut = true -> is_done (state fut) = true) (futures p);
  trace_network :
    network (world p) ≡ₚ network w0 ++ mjoin (sent <$> futures p);
  trace_stdout : exists printed, stdout (world p) = (stdout w0 ++ printed)%list;
  trace_lines :
    length (stdout (world p))
    = (length (stdout w0) + sum_list_with lines_printed (futures p))%nat;
  trace_dirs : dirs (world p) = dirs w0;
  trace_files : files_inv w0 (futures p) (files (world p))
}.


End Scraper.

Arguments fetch_course_data server code w : simpl never.
Arguments PyStr.py_range n : simpl never.

(** ** Sample services *)

(** A service that gives every request the same answer. *)
Definition answer_all (answer : transport_error + Response) : Request -> transport_error + Response :=
  fun _ => answer.

Definition ok_json (body : string) : transport_error + Response :=
  inr (MkResponse 200 [("Content-Type", "application/json")] body).

Definition not_found : transport_error + Response :=
  inr (MkResponse 404 [("Content-Type", "text/html")] "<h1>Not Found</h1>").

(** The text [{"a":1}]. *)
Definition body_a1 : string :=
  "{" +:+ String Json.dquote "a" +:+ String Json.dquote ":1}".



Definition empty_world : World := MkWorld 0 0 ∅ ∅ [] [].


(** What is expected of the rendering of one code. *)
Definition all_digits (s : string) : bool :=
  forallb Json.is_digit (list_ascii_of_string s).

Definition well_rendered (c : Z) : bool :=
  let code := PyStr.format_04d c in
  (String.length code =? 4)%nat
  && all_digits code
  && match PyStr.parse_decimal code with
     | Some c' => c' =? c
     | None => false
     end.


(** The repr used in the examples: the literal itself. *)
Definition literal_repr (literal : string) : string := literal.




(** ** The fetcher *)

Section Fetcher.
Variable server : Request -> transport_error + Response.

(** The world only gains the request that was sent. *)
Lemma fetch_course_data_eq code w :
  fetch_course_data server code w
  = (fetch_result server code, put_request (request_for code) w).
Proof.
  unfold fetch_result, fetch_course_data, try_except, bind, requests_get, request_for.
  destruct (server _) as [e | response]; simpl; [reflexivity |].
  destruct (status_code response =? 200); [| reflexivity].
  unfold response_json. destruct (Json.loads (text response)) as [data |]; simpl; [| reflexivity].
  unfold py_len. destruct (Json.len data) as [n |]; simpl; [| reflexivity].
  destruct (n =? 0); reflexivity.
Qed.

Lemma fetch_result_transport_error code e :
  server (request_for code) = inl e ->
  fetch_result server code = Return Json.PyNone.
Proof.
  intros Hs. unfold fetch_result, fetch_course_data, try_except, bind, requests_get.
  fold (request_for code). rewrite Hs. reflexivity.
Qed.

Lemma fetch_result_response code response :
  server (request_for code) = inr response ->
  fetch_result server code
  = if status_code response =? 200 then
      match Json.loads (text response) with
      | None => Return Json.PyNone
      | Some data =>
          match Json.len data with
          | None => Raise (TypeError ("object of type '" +:+ Json.type_name data +:+ "' has no len()"))
          | Some n => if n =? 0 then Return Json.PyNone else Return data
          end
      end
    else Return Json.PyNone.
Proof.
  intros Hs. unfold fetch_result, fetch_course_data, try_except, bind, requests_get.
  fold (request_for code). rewrite Hs. simpl.
  destruct (status_code response =? 200); [| reflexivity].
  unfold response_json. destruct (Json.loads (text response)) as [data |]; simpl; [| reflexivity].
  unfold py_len. destruct (Json.len data) as [n |]; simpl; [| reflexivity].
  destruct (n =? 0); reflexivity.
Qed.

Lemma fetch_result_bad_status code response :
  server (request_for code) = inr response ->
  status_code response <> 200 ->
  fetch_result server code = Return Json.PyNone.
Proof.
  intros Hs Hc. rewrite (fetch_result_response _ _ Hs).
  destruct (Z.eqb_spec (status_code response) 200); [contradiction | reflexivity].
Qed.

Lemma fetch_result_not_json code response :
  server (request_for code) = inr response ->
  Json.loads (text response) = None ->
  fetch_result server code = Return Json.PyNone.
Proof.
  intros Hs Hj. rewrite (fetch_result_response _ _ Hs), Hj.
  destruct (status_code response =? 200); reflexivity.
Qed.

Lemma fetch_result_empty code response data :
  server (request_for code) = inr response ->
  Json.loads (text response) = Some data ->
  Json.len data = Some 0 ->
  fetch_result server code = Return Json.PyNone.
Proof.
  intros Hs Hj Hl. rewrite (fetch_result_response _ _ Hs), Hj, Hl.
  destruct (status_code response =? 200); reflexivity.
Qed.


(** A value without a length makes [len(data)] raise, and the [except]
    clause does not list [TypeError]. *)
Lemma fetch_result_unsized code response data :
  server (request_for code) = inr response ->
  status_code response = 200 ->
  Json.loads (text response) = Some data ->
  Json.len data = None ->
  fetch_result server code
  = Raise (TypeError ("object of type '" +:+ Json.type_name data +:+ "' has no len()")).
Proof.
  intros Hs Hc Hj Hl. rewrite (fetch_result_response _ _ Hs), Hc, Hj, Hl. reflexivity.
Qed.

(** A value that comes back as data has elements, so it is not [None]. *)
Lemma has_elements_not_None data :
  Json.has_elements data = true -> is_not_None data = true.
Proof. destruct data; try reflexivity; discriminate. Qed.

Lemma fetch_result_Return code data :
  fetch_result server code = Return data ->
  data = Json.PyNone \/ Json.has_elements data = true.
Proof.
  destruct (server (request_for code)) as [e | response] eqn:Hs.
  - rewrite (fetch_result_transport_error _ _ Hs). intros [= <-]. by left.
  - rewrite (fetch_result_response _ _ Hs).
    destruct (status_code response =? 200); [| intros [= <-]; by left].
    destruct (Json.loads (text response)) as [v |]; [| intros [= <-]; by left].
    unfold Json.has_elements. destruct (Json.len v) as [n |] eqn:Hl; [| discriminate].
    destruct (n =? 0) eqn:Hn; intros [= <-]; [by left | right].
    by rewrite Hl, Hn.
Qed.

End Fetcher.

(** ** One call of [process_code] *)

Section ProcessCode.
Variable server : Request -> transport_error + Response.
Variable float_repr : string -> string.


Lemma process_code_absent code_num output_dir w :
  fetch_result server (PyStr.format_04d code_num) = Return Json.PyNone ->
  let code := PyStr.format_04d code_num in
  let w1 := set_failed (failed w + 1) (put_request (request_for code) w) in
  process_code server float_repr code_num output_dir w
  = (Return (code, false),
     if code_num mod 100 =? 0
     then put_line (progress_line code (successful w) (failed w + 1)) w1
     else w1).
Proof.
  intros Hf code w1. unfold process_code, bind. fold code.
  rewrite fetch_course_data_eq. fold code in Hf. rewrite Hf. simpl.
  unfold count_failure, with_lock, bind. simpl.
  destruct (code_num mod 100 =? 0); reflexivity.
Qed.

(** No file is written for a code classified Absent. *)
Lemma absent_code_writes_no_file code_num output_dir w :
  fetch_result server (PyStr.format_04d code_num) = Return Json.PyNone ->
  files (snd (process_code server float_repr code_num output_dir w)) = files w.
Proof.
  intros Hf. pose proof (process_code_absent code_num output_dir w Hf) as Hp.
  cbv zeta in Hp. rewrite Hp. cbn [snd].
  destruct (code_num mod 100 =? 0); reflexivity.
Qed.

Lemma process_code_raise code_num output_dir w e :
  fetch_result server (PyStr.format_04d code_num) = Raise e ->
  process_code server float_repr code_num output_dir w
  = (Raise e, put_request (request_for (PyStr.format_04d code_num)) w).
Proof.
  intros Hf. unfold process_code, bind.
  rewrite fetch_course_data_eq, Hf. reflexivity.
Qed.

Lemma run_to_end_process_code code_num output_dir w :
  run_to_end server float_repr code_num output_dir w
  = (Done (fst (process_code server float_repr code_num output_dir w)),
     snd (process_code server float_repr code_num output_dir w)).
Proof.
  unfold run_to_end, task_step, process_code, bind.
  rewrite fetch_course_data_eq.
  destruct (fetch_result server (PyStr.format_04d code_num)) as [data | e]; [| reflexivity].
  destruct (is_not_None data) eqn:Hd; rewrite ?Hd; [reflexivity |].
  unfold count_failure, with_lock, bind. simpl.
  destruct (code_num mod 100 =? 0); reflexivity.
Qed.

End ProcessCode.

(** ** The pool: what every interleaving preserves *)

Section Pool.
Variable server : Request -> transport_error + Response.
Variable float_repr : string -> string.

Lemma sum_list_with_insert {A} (f : A -> nat) (l : list A) i x y :
  l !! i = Some x ->
  (sum_list_with f (<[i := y]> l) + f x = sum_list_with f l + f y)%nat.
Proof.
  revert i. induction l as [| a l IH]; intros [| i] Hi; simpl in *; try discriminate.
  - injection Hi as ->. lia.
  - specialize (IH i Hi). lia.
Qed.

(** A step of a task changes the counters as its new state says. *)
Lemma task_step_counters c dir t w :
  is_done t = false ->
  consistent server (MkFuture c t false) ->
  let t' := fst (task_step server float_repr c dir t w) in
  let w' := snd (task_step server float_repr c dir t w) in
  consistent server (MkFuture c t' false)
  /\ successful w' = successful w + Z.of_nat (counted_success (MkFuture c t' false))
  /\ failed w' = failed w + Z.of_nat (counted_failure (MkFuture c t' false))
  /\ counted_success (MkFuture c t false) = 0%nat
  /\ counted_failure (MkFuture c t false) = 0%nat.
Proof.
  intros Hd Hc.
  destruct t as [| code data | code filename | outcome]; simpl in *;
    unfold consistent, counted_success, counted_failure in *; simpl in *.
  - rewrite fetch_course_data_eq.
    destruct (fetch_result server (PyStr.format_04d c)) as [data | e] eqn:Hf; simpl.
    + repeat split; try lia; auto.
    + unfold raises. rewrite Hf. repeat split; try lia; auto.
  - destruct Hc as [-> Hf].
    destruct (is_not_None data) eqn:Hn; simpl.
    + unfold present. rewrite Hf. repeat split; try lia; auto.
    + unfold absent. rewrite Hf, Hn.
      unfold count_failure, with_lock, bind. simpl.
      destruct (c mod 100 =? 0); simpl; repeat split; try lia; auto.
  - destruct Hc as [-> Hp]. repeat split; try lia; auto.
  - discriminate.
Qed.

Lemma consistent_collected c t b b' :
  consistent server (MkFuture c t b) -> consistent server (MkFuture c t b').
Proof. exact id. Qed.

Lemma step_pool_inv codes dir p p' :
  step server float_repr dir p p' -> pool_inv server codes p -> pool_inv server codes p'.
Proof.
  intros Hstep [Hcodes Hcons Hs Hf].
  destruct Hstep as [i fut Hi Hnd | i fut outcome Hi Hst Hcol].
  - pose proof (proj1 (Forall_lookup _ _) Hcons i fut Hi) as Hfut.
    destruct fut as [c t b]. simpl in *.
    destruct (task_step_counters c dir t (world p) Hnd (consistent_collected _ _ _ _ Hfut))
      as (Hc' & Hs' & Hf' & Hs0 & Hf0).
    pose proof (sum_list_with_insert counted_success (futures p) i (MkFuture c t b)
                  (MkFuture c (fst (task_step server float_repr c dir t (world p))) b) Hi) as Es.
    pose proof (sum_list_with_insert counted_failure (futures p) i (MkFuture c t b)
                  (MkFuture c (fst (task_step server float_repr c dir t (world p))) b) Hi) as Ef.
    unfold counted_success, counted_failure in *. simpl in *.
    split; simpl.
    + rewrite list_fmap_insert. simpl. rewrite <- Hcodes. apply list_insert_id.
      rewrite list_lookup_fmap, Hi. reflexivity.
    + apply Forall_insert; [assumption |]. exact Hc'.
    + rewrite Hs', Hs. unfold counted_success. simpl. lia.
    + rewrite Hf', Hf. unfold counted_failure. simpl. lia.
  - pose proof (proj1 (Forall_lookup _ _) Hcons i fut Hi) as Hfut.
    destruct fut as [c t b]. simpl in *. subst t.
    pose proof (sum_list_with_insert counted_success (futures p) i (MkFuture c (Done outcome) b)
                  (MkFuture c (Done outcome) true) Hi) as Es.
    pose proof (sum_list_with_insert counted_failure (futures p) i (MkFuture c (Done outcome) b)
                  (MkFuture c (Done outcome) true) Hi) as Ef.
    unfold counted_success, counted_failure in *. simpl in *.
    assert (successful (snd (collect outcome (world p))) = successful (world p)
            /\ failed (snd (collect outcome (world p))) = failed (world p)) as [Es' Ef'].
    { destruct outcome; split; reflexivity. }
    split; simpl.
    + rewrite list_fmap_insert. simpl. rewrite <- Hcodes. apply list_insert_id.
      rewrite list_lookup_fmap, Hi. reflexivity.
    + apply Forall_insert; [assumption |]. exact Hfut.
    + rewrite Es', Hs. unfold counted_success. simpl. lia.
    + rewrite Ef', Hf. unfold counted_failure. simpl. lia.
Qed.

Lemma steps_pool_inv codes dir p p' :
  rtc (step server float_repr dir) p p' -> pool_inv server codes p -> pool_inv server codes p'.
Proof.
  induction 1 as [| p q r Hpq _ IH]; [trivial |].
  intros Hp. apply IH. eapply step_pool_inv; eassumption.
Qed.

Lemma submit_all_inv w :
  successful w = 0 -> failed w = 0 ->
  pool_inv server (PyStr.py_range 10000) (submit_all w).
Proof.
  intros Hs Hf. unfold submit_all. generalize (PyStr.py_range 10000). intros l.
  split; cbn [futures world].
  - rewrite <- list_fmap_compose. apply list_fmap_id.
  - apply Forall_fmap, Forall_true. intros c. exact I.
  - rewrite Hs. induction l as [| c l IH]; [reflexivity | exact IH].
  - rewrite Hf. induction l as [| c l IH]; [reflexivity | exact IH].
Qed.

(** *** Every schedule comes to the end *)






End Pool.

(** ** The end of a run *)

Section RunEnd.
Variable server : Request -> transport_error + Response.
Variable float_repr : string -> string.
Variable cpu_count : Z.





Lemma length_py_range n : 0 <= n -> Z.of_nat (length (PyStr.py_range n)) = n.
Proof.
  intros Hn. unfold PyStr.py_range. rewrite length_fmap, length_seq. lia.
Qed.


Lemma main_prologue_counters w0 :
  successful (snd (main_prologue cpu_count w0)) = 0
  /\ failed (snd (main_prologue cpu_count w0)) = 0.
Proof. split; reflexivity. Qed.

Lemma main_epilogue_world w :
  snd (main_epilogue w)
  = MkWorld (successful w) (failed w) (dirs w) (files w)
      (stdout w ++ [PyStr.repeat_char "-" 50; "Completed!";
                    "Successful: " +:+ PyStr.str_of_int (successful w);
                    "Failed: " +:+ PyStr.str_of_int (failed w);
                    "Total processed: " +:+ PyStr.str_of_int (successful w + failed w)])
      (network w).
Proof.
  unfold main_epilogue, bind, print, modify, get, put_line. simpl.
  rewrite <- !app_assoc. reflexivity.
Qed.


End RunEnd.

(** ** A run exists: the pool of one worker *)

Section OneWorker.
Variable server : Request -> transport_error + Response.
Variable float_repr : string -> string.
Variable cpu_count : Z.

Let steps := rtc (step server float_repr output_dir).

Lemma insert_middle {A} (l1 l2 : list A) (x y : A) :
  <[length l1 := y]> (l1 ++ x :: l2)%list = (l1 ++ y :: l2)%list.
Proof.
  replace (length l1) with (length l1 + 0)%nat by lia.
  rewrite insert_app_r. reflexivity.
Qed.

(** A task in the middle of the list moves on, or stays when it is done. *)
Lemma advance_middle pre rest c t b w :
  steps (MkPool (pre ++ MkFuture c t b :: rest) w)
    (MkPool (pre ++ MkFuture c (fst (task_step server float_repr c output_dir t w)) b :: rest)
       (snd (task_step server float_repr c output_dir t w))).
Proof.
  destruct (is_done t) eqn:Hd.
  - destruct t; try discriminate. apply rtc_refl.
  - apply rtc_once.
    pose proof (step_task server float_repr output_dir
                  (MkPool (pre ++ MkFuture c t b :: rest) w)
                  (length pre) (MkFuture c t b)) as Hstep.
    simpl in Hstep. rewrite insert_middle in Hstep.
    apply Hstep; [by apply list_lookup_middle | exact Hd].
Qed.

Lemma collect_middle pre rest c outcome w :
  steps (MkPool (pre ++ MkFuture c (Done outcome) false :: rest) w)
    (MkPool (pre ++ MkFuture c (Done outcome) true :: rest) (snd (collect outcome w))).
Proof.
  apply rtc_once.
  pose proof (step_collect server float_repr output_dir
                (MkPool (pre ++ MkFuture c (Done outcome) false :: rest) w)
                (length pre) (MkFuture c (Done outcome) false) outcome) as Hstep.
  simpl in Hstep. rewrite insert_middle in Hstep.
  apply Hstep; [by apply list_lookup_middle | reflexivity | reflexivity].
Qed.

Lemma run_task_steps pre rest c w :
  steps (MkPool (pre ++ MkFuture c Pending false :: rest) w)
    (MkPool
       (pre ++ MkFuture c (Done (fst (process_code server float_repr c output_dir w))) true :: rest)
       (snd (run_task server float_repr c w))).
Proof.
  pose proof (run_to_end_process_code server float_repr c output_dir w) as Hend.
  unfold run_to_end in Hend.
  destruct (task_step server float_repr c output_dir Pending w) as [t1 w1] eqn:H1.
  destruct (task_step server float_repr c output_dir t1 w1) as [t2 w2] eqn:H2.
  etrans. { apply (advance_middle pre rest c Pending false w). }
  rewrite H1. simpl.
  etrans. { apply (advance_middle pre rest c t1 false w1). }
  rewrite H2. simpl.
  etrans. { apply (advance_middle pre rest c t2 false w2). }
  rewrite Hend. simpl.
  unfold run_task.
  destruct (process_code server float_repr c output_dir w) as [outcome w'].
  apply collect_middle.
Qed.

Lemma run_tasks_steps codes : forall pre w,
  exists post,
    Forall done_collected post
    /\ steps (MkPool (pre ++ ((fun c => MkFuture c Pending false) <$> codes)) w)
         (MkPool (pre ++ post) (snd (run_tasks server float_repr codes w))).
Proof.
  induction codes as [| c codes IH]; intros pre w.
  - exists []. split; [constructor | apply rtc_refl].
  - rewrite fmap_cons.
    set (fut := MkFuture c (Done (fst (process_code server float_repr c output_dir w))) true).
    destruct (IH (pre ++ [fut])%list (snd (run_task server float_repr c w))) as (post & Hpost & Hsteps).
    exists (fut :: post). split.
    + constructor; [split; reflexivity | exact Hpost].
    + etrans. { apply run_task_steps. }
      fold fut. rewrite <- !app_assoc in Hsteps. simpl in Hsteps.
      assert (snd (run_tasks server float_repr (c :: codes) w)
              = snd (run_tasks server float_repr codes (snd (run_task server float_repr c w)))) as ->.
      { simpl. unfold bind.
        assert (forall w1, exists w2, run_task server float_repr c w1 = (Return tt, w2)) as Hr.
        { intros w1. unfold run_task.
          destruct (process_code server float_repr c output_dir w1) as [[r | e] w2];
            simpl; eexists; reflexivity. }
        destruct (Hr w) as [w2 ->]. reflexivity. }
      exact Hsteps.
Qed.

Lemma run_tasks_returns codes : forall w,
  fst (run_tasks server float_repr codes w) = Return tt.
Proof.
  induction codes as [| c codes IH]; intros w; [reflexivity |].
  simpl. unfold bind.
  destruct (run_task server float_repr c w) as [[[] | e] w1] eqn:Hr.
  - apply IH.
  - unfold run_task in Hr.
    destruct (process_code server float_repr c output_dir w) as [[r | e'] w2]; discriminate.
Qed.

(** [main], run by one worker, is one of the runs. *)
Lemma main_is_a_run w0 :
  main_run server float_repr cpu_count w0 (snd (main server float_repr cpu_count w0)).
Proof.
  set (w1 := snd (main_prologue cpu_count w0)).
  assert (main_prologue cpu_count w0 = (Return tt, w1)) as Hp by reflexivity.
  destruct (run_tasks_steps (PyStr.py_range 10000) [] w1) as (post & Hpost & Hsteps).
  pose proof (run_tasks_returns (PyStr.py_range 10000) w1) as Hr.
  unfold main, bind. rewrite Hp.
  destruct (run_tasks server float_repr (PyStr.py_range 10000) w1) as [r2 w2].
  cbn [fst snd] in Hr, Hsteps. subst r2.
  exists (MkPool post w2).
  split; [exact Hsteps | split; [exact Hpost | reflexivity]].
Qed.

End OneWorker.

(** ** The rendering of any integer *)

Section Rendering.

Lemma digit_value_digit_char d :
  0 <= d < 10 -> PyStr.digit_value (PyStr.digit_char d) = Some d.
Proof.
  intros Hd.
  assert (d = 0 \/ d = 1 \/ d = 2 \/ d = 3 \/ d = 4 \/ d = 5 \/ d = 6 \/ d = 7 \/ d = 8 \/ d = 9)
    as Hcases by lia.
  repeat (destruct Hcases as [-> | Hcases]; [reflexivity |]). subst. reflexivity.
Qed.

Lemma app_cons c (s t : string) : String c s +:+ t = String c (s +:+ t).
Proof. reflexivity. Qed.

Lemma app_empty_r (s : string) : s +:+ EmptyString = s.
Proof. induction s as [| c s IH]; [reflexivity |]. by rewrite app_cons, IH. Qed.

Lemma parse_digits_cons c s a :
  PyStr.parse_digits (String c s) a
  = match PyStr.digit_value c with
    | Some d => PyStr.parse_digits s (10 * a + d)
    | None => None
    end.
Proof. reflexivity. Qed.

Lemma parse_digits_app s t a :
  PyStr.parse_digits (s +:+ t) a
  = match PyStr.parse_digits s a with
    | Some b => PyStr.parse_digits t b
    | None => None
    end.
Proof.
  revert a. induction s as [| c s IH]; intros a; [reflexivity |].
  rewrite app_cons, !parse_digits_cons.
  destruct (PyStr.digit_value c); [apply IH | reflexivity].
Qed.

Lemma string_app_assoc (s t u : string) : (s +:+ t) +:+ u = s +:+ (t +:+ u).
Proof. induction s as [| c s IH]; [reflexivity |]. by rewrite !app_cons, IH. Qed.

Lemma string_app_length (s t : string) :
  String.length (s +:+ t) = (String.length s + String.length t)%nat.
Proof. induction s as [| c s IH]; [reflexivity |]. rewrite app_cons. simpl. by rewrite IH. Qed.

(** The digits written for [n] read back as [n]; the fuel is enough when
    [n] is below [2 ^ fuel]. *)
Lemma decimal_digits_parse fuel : forall n acc,
  0 <= n < 2 ^ Z.of_nat fuel -> (0 < fuel)%nat ->
  exists ds,
    PyStr.decimal_digits fuel n acc = ds +:+ acc
    /\ ds <> EmptyString
    /\ PyStr.parse_digits ds 0 = Some n.
Proof.
  induction fuel as [| fuel IH]; intros n acc Hn Hfuel; [lia |].
  assert (0 <= n mod 10 < 10) as Hd by (apply Z.mod_pos_bound; lia).
  assert (n = 10 * (n / 10) + n mod 10) as Hdiv by (apply Z.div_mod; lia).
  cbn [PyStr.decimal_digits].
  destruct (Z.eqb_spec (n / 10) 0) as [Hz | Hnz].
  - exists (String (PyStr.digit_char (n mod 10)) EmptyString).
    split; [reflexivity | split; [discriminate |]].
    rewrite parse_digits_cons, digit_value_digit_char by exact Hd.
    cbn [PyStr.parse_digits]. f_equal. lia.
  - assert (0 < n / 10) as Hpos.
    { assert (0 <= n / 10) by (apply Z.div_pos; lia). lia. }
    assert (n / 10 < 2 ^ Z.of_nat fuel) as Hlt.
    { rewrite Nat2Z.inj_succ, Z.pow_succ_r in Hn by lia.
      apply Z.div_lt_upper_bound; lia. }
    assert (0 < fuel)%nat as Hfuel'.
    { destruct fuel; [simpl in Hlt; lia | lia]. }
    destruct (IH (n / 10) (String (PyStr.digit_char (n mod 10)) acc)
                 (conj (Z.lt_le_incl _ _ Hpos) Hlt) Hfuel')
      as (ds & Hds & Hne & Hparse).
    exists (ds +:+ String (PyStr.digit_char (n mod 10)) EmptyString).
    split; [| split].
    + rewrite Hds, string_app_assoc, app_cons. reflexivity.
    + destruct ds; [contradiction | discriminate].
    + rewrite parse_digits_app, Hparse.
      rewrite parse_digits_cons, digit_value_digit_char by exact Hd.
      cbn [PyStr.parse_digits]. f_equal. lia.
Qed.

Lemma str_of_nonneg_parse n :
  0 <= n ->
  PyStr.str_of_nonneg n <> EmptyString
  /\ PyStr.parse_digits (PyStr.str_of_nonneg n) 0 = Some n.
Proof.
  intros Hn. unfold PyStr.str_of_nonneg.
  destruct (decimal_digits_parse (S (Z.to_nat (Z.log2 n))) n EmptyString)
    as (ds & Hds & Hne & Hparse); [| lia |].
  - pose proof (Z.log2_nonneg n) as Hlog.
    rewrite Nat2Z.inj_succ, Z2Nat.id by exact Hlog.
    destruct (Z.eq_dec n 0) as [-> | Hnz]; [simpl; lia |].
    pose proof (Z.log2_spec n ltac:(lia)). lia.
  - rewrite Hds, app_empty_r. by split.
Qed.

Lemma zero_pad_parse width s :
  PyStr.parse_digits (PyStr.zero_pad width s) 0 = PyStr.parse_digits s 0.
Proof.
  unfold PyStr.zero_pad. generalize (width - String.length s)%nat. intros k.
  induction k as [| k IH]; [reflexivity | exact IH].
Qed.

Lemma zero_pad_length width s :
  String.length (PyStr.zero_pad width s) = Nat.max width (String.length s).
Proof.
  unfold PyStr.zero_pad. rewrite string_app_length.
  assert (forall k, String.length (PyStr.repeat_char "0" k) = k) as ->.
  { induction k as [| k IH]; [reflexivity |]. simpl. f_equal. exact IH. }
  lia.
Qed.

Lemma zero_pad_nonempty width s : s <> EmptyString -> PyStr.zero_pad width s <> EmptyString.
Proof.
  intros Hs Hz. apply (f_equal String.length) in Hz.
  rewrite zero_pad_length in Hz. destruct s; [contradiction | simpl in Hz; lia].
Qed.

(** A string of digits is read by [parse_decimal] as by [parse_digits]. *)
Lemma parse_decimal_digits s n :
  s <> EmptyString -> PyStr.parse_digits s 0 = Some n -> PyStr.parse_decimal s = Some n.
Proof.
  intros Hs Hp. destruct s as [| c s]; [contradiction |].
  destruct (ascii_dec c "-") as [-> | Hminus]; [discriminate Hp |].
  destruct (ascii_dec c "+") as [-> | Hplus]; [discriminate Hp |].
  rewrite <- Hp. unfold PyStr.parse_decimal.
  destruct c as [[] [] [] [] [] [] [] []]; try reflexivity; contradiction.
Qed.

Lemma format_04d_parse n : PyStr.parse_decimal (PyStr.format_04d n) = Some n.
Proof.
  unfold PyStr.format_04d. destruct (Z.ltb_spec n 0) as [Hneg | Hpos].
  - destruct (str_of_nonneg_parse (- n)) as [Hne Hparse]; [lia |].
    pose proof (zero_pad_nonempty 3 _ Hne) as Hne'.
    pose proof (zero_pad_parse 3 (PyStr.str_of_nonneg (- n))) as Hz.
    destruct (PyStr.zero_pad 3 (PyStr.str_of_nonneg (- n))) as [| c s]; [contradiction |].
    simpl. simpl in Hz. rewrite Hz, Hparse. simpl. f_equal. lia.
  - destruct (str_of_nonneg_parse n Hpos) as [Hne Hparse].
    apply parse_decimal_digits; [by apply zero_pad_nonempty |].
    by rewrite zero_pad_parse.
Qed.

Lemma format_04d_length n :
  (4 <= String.length (PyStr.format_04d n))%nat.
Proof.
  unfold PyStr.format_04d. destruct (n <? 0); simpl; rewrite zero_pad_length; lia.
Qed.

End Rendering.

(** ** The rendering of the codes of a run *)

Section FourDigits.

Lemma is_digit_digit_char d :
  0 <= d < 10 -> Json.is_digit (PyStr.digit_char d) = true.
Proof.
  intros Hd.
  assert (d = 0 \/ d = 1 \/ d = 2 \/ d = 3 \/ d = 4 \/ d = 5 \/ d = 6 \/ d = 7 \/ d = 8 \/ d = 9)
    as Hcases by lia.
  repeat (destruct Hcases as [-> | Hcases]; [reflexivity |]). subst. reflexivity.
Qed.

Lemma all_digits_cons c s :
  all_digits (String c s) = Json.is_digit c && all_digits s.
Proof. reflexivity. Qed.

Lemma all_digits_app s t : all_digits (s +:+ t) = all_digits s && all_digits t.
Proof.
  induction s as [| c s IH]; [reflexivity |].
  rewrite app_cons, !all_digits_cons, IH. by rewrite andb_assoc.
Qed.

(** The digits written for [n] are digits, and as many as [n] needs: the
    first one is not a zero unless it is the only one. *)
Lemma decimal_digits_shape fuel : forall n acc,
  0 <= n < 2 ^ Z.of_nat fuel -> (0 < fuel)%nat ->
  exists ds,
    PyStr.decimal_digits fuel n acc = ds +:+ acc
    /\ all_digits ds = true
    /\ (1 <= String.length ds)%nat
    /\ (String.length ds = 1%nat \/ 10 ^ (Z.of_nat (String.length ds) - 1) <= n).
Proof.
  induction fuel as [| fuel IH]; intros n acc Hn Hfuel; [lia |].
  assert (0 <= n mod 10 < 10) as Hd by (apply Z.mod_pos_bound; lia).
  assert (n = 10 * (n / 10) + n mod 10) as Hdiv by (apply Z.div_mod; lia).
  cbn [PyStr.decimal_digits].
  destruct (Z.eqb_spec (n / 10) 0) as [Hz | Hnz].
  - exists (String (PyStr.digit_char (n mod 10)) EmptyString).
    split; [reflexivity |]. split; [| split; [reflexivity | by left]].
    rewrite all_digits_cons, is_digit_digit_char by exact Hd. reflexivity.
  - assert (0 < n / 10) as Hpos.
    { assert (0 <= n / 10) by (apply Z.div_pos; lia). lia. }
    assert (n / 10 < 2 ^ Z.of_nat fuel) as Hlt.
    { rewrite Nat2Z.inj_succ, Z.pow_succ_r in Hn by lia.
      apply Z.div_lt_upper_bound; lia. }
    assert (0 < fuel)%nat as Hfuel'.
    { destruct fuel; [simpl in Hlt; lia | lia]. }
    destruct (IH (n / 10) (String (PyStr.digit_char (n mod 10)) acc)
                 (conj (Z.lt_le_incl _ _ Hpos) Hlt) Hfuel')
      as (ds & Hds & Hall & Hone & Hlen).
    exists (ds +:+ String (PyStr.digit_char (n mod 10)) EmptyString).
    split; [| split; [| split]].
    + rewrite Hds, string_app_assoc, app_cons. reflexivity.
    + rewrite all_digits_app, Hall, all_digits_cons, is_digit_digit_char by exact Hd.
      reflexivity.
    + rewrite string_app_length. lia.
    + right. rewrite string_app_length. cbn [String.length].
      replace (Z.of_nat (String.length ds + 1) - 1) with (Z.succ (Z.of_nat (String.length ds) - 1))
        by lia.
      destruct Hlen as [Hlen | Hlow].
      * rewrite Hlen. change (10 ^ Z.succ (Z.of_nat 1 - 1)) with 10.
        clear - Hdiv Hpos Hd. lia.
      * rewrite Z.pow_succ_r by lia.
        revert Hlow. generalize (10 ^ (Z.of_nat (String.length ds) - 1)).
        clear - Hdiv Hpos Hd. intros z Hz. lia.
Qed.

Lemma str_of_nonneg_shape n :
  0 <= n < 10000 ->
  all_digits (PyStr.str_of_nonneg n) = true
  /\ (String.length (PyStr.str_of_nonneg n) <= 4)%nat.
Proof.
  intros Hn. unfold PyStr.str_of_nonneg.
  destruct (decimal_digits_shape (S (Z.to_nat (Z.log2 n))) n EmptyString)
    as (ds & Hds & Hall & _ & Hlen); [| lia |].
  - pose proof (Z.log2_nonneg n) as Hlog.
    rewrite Nat2Z.inj_succ, Z2Nat.id by exact Hlog.
    destruct (Z.eq_dec n 0) as [-> | Hnz]; [simpl; lia |].
    pose proof (Z.log2_spec n ltac:(lia)). lia.
  - rewrite Hds, app_empty_r. split; [exact Hall |].
    destruct Hlen as [-> | Hlow]; [lia |].
    destruct (le_lt_dec (String.length ds) 4) as [Hle | Hgt]; [exact Hle | exfalso].
    assert (10 ^ 4 <= 10 ^ (Z.of_nat (String.length ds) - 1)) as Hpow
      by (apply Z.pow_le_mono_r; lia).
    change (10 ^ 4) with 10000 in Hpow. lia.
Qed.

Lemma all_digits_zero_pad width s :
  all_digits s = true -> all_digits (PyStr.zero_pad width s) = true.
Proof.
  intros Hs. unfold PyStr.zero_pad. rewrite all_digits_app, Hs, andb_true_r.
  generalize (width - String.length s)%nat. intros k.
  induction k as [| k IH]; [reflexivity | exact IH].
Qed.

(** A code of a run is rendered with exactly four digits. *)
Lemma well_rendered_code c : 0 <= c < 10000 -> well_rendered c = true.
Proof.
  intros Hc. unfold well_rendered. rewrite format_04d_parse, Z.eqb_refl, andb_true_r.
  unfold PyStr.format_04d. destruct (Z.ltb_spec c 0) as [Hneg | _]; [lia |].
  destruct (str_of_nonneg_shape c Hc) as [Hall Hlen].
  rewrite zero_pad_length, all_digits_zero_pad by exact Hall.
  rewrite andb_true_r. apply Nat.eqb_eq. lia.
Qed.

End FourDigits.

(** ** The file of a code *)

Section Paths.

Lemma app_inv_tail (s1 s2 t : string) : s1 +:+ t = s2 +:+ t -> s1 = s2.
Proof.
  revert s2. induction s1 as [| c1 s1 IH]; intros [| c2 s2] Heq.
  - reflexivity.
  - change (t = String c2 (s2 +:+ t)) in Heq.
    apply (f_equal String.length) in Heq.
    simpl in Heq. rewrite string_app_length in Heq. lia.
  - change (String c1 (s1 +:+ t) = t) in Heq.
    apply (f_equal String.length) in Heq.
    simpl in Heq. rewrite string_app_length in Heq. lia.
  - rewrite !app_cons in Heq. injection Heq as -> Heq. f_equal. by apply IH.
Qed.

(** A rendered code does not start with a slash, so [os.path.join] keeps
    the directory in front of it. *)
Lemma format_04d_head n :
  exists c s, PyStr.format_04d n = String c s /\ c <> "/"%char.
Proof.
  pose proof (format_04d_parse n) as Hp.
  destruct (PyStr.format_04d n) as [| c s]; [discriminate Hp |].
  exists c, s. split; [reflexivity |]. intros ->. discriminate Hp.
Qed.

Lemma os_path_join_relative dir c s :
  c <> "/"%char ->
  os_path_join dir (String c s)
  = (if (String.length dir =? 0)%nat || ends_with_slash dir then dir else dir +:+ "/")
    +:+ String c s.
Proof.
  intros Hc. unfold os_path_join.
  assert (match String c s with
          | String "/" _ => true
          | _ => false
          end = false) as Hmatch.
  { destruct c as [[] [] [] [] [] [] [] []]; try reflexivity; contradiction. }
  destruct c as [[] [] [] [] [] [] [] []]; try discriminate Hmatch;
    destruct ((String.length dir =? 0)%nat || ends_with_slash dir);
    rewrite ?string_app_assoc; reflexivity.
Qed.

(** Two codes have the same file only if they are the same code. *)
Lemma json_path_inj dir c1 c2 :
  json_path dir (PyStr.format_04d c1) = json_path dir (PyStr.format_04d c2) -> c1 = c2.
Proof.
  unfold json_path. intros Heq.
  destruct (format_04d_head c1) as (a1 & s1 & E1 & H1).
  destruct (format_04d_head c2) as (a2 & s2 & E2 & H2).
  pose proof (format_04d_parse c1) as P1. pose proof (format_04d_parse c2) as P2.
  rewrite E1, E2 in *. rewrite !app_cons in Heq.
  rewrite !os_path_join_relative in Heq by assumption.
  apply String.app_inj in Heq. rewrite <- !app_cons in Heq.
  apply app_inv_tail in Heq. rewrite Heq in P1. congruence.
Qed.


End Paths.

(** ** Codes and their rendering *)

Section Codes.

Lemma elem_of_py_range n c : c ∈ PyStr.py_range n <-> 0 <= c < n.
Proof.
  unfold PyStr.py_range. rewrite list_elem_of_fmap. split.
  - intros (k & -> & Hk). apply elem_of_seq in Hk. lia.
  - intros Hc. exists (Z.to_nat c). split; [lia |]. apply elem_of_seq. lia.
Qed.

Lemma codes_well_rendered : forallb well_rendered (PyStr.py_range 10000) = true.
Proof.
  apply forallb_forall. intros c Hc. apply list_elem_of_In, elem_of_py_range in Hc.
  by apply well_rendered_code.
Qed.

Lemma format_04d_roundtrip c :
  0 <= c < 10000 ->
  String.length (PyStr.format_04d c) = 4%nat
  /\ all_digits (PyStr.format_04d c) = true
  /\ PyStr.parse_decimal (PyStr.format_04d c) = Some c.
Proof.
  intros Hc. apply elem_of_py_range, list_elem_of_In in Hc.
  pose proof (proj1 (forallb_forall _ _) codes_well_rendered c Hc) as Hw.
  unfold well_rendered in Hw.
  apply andb_prop in Hw as [Hw Hp]. apply andb_prop in Hw as [Hl Hd].
  split; [by apply Nat.eqb_eq | split; [exact Hd |]].
  destruct (PyStr.parse_decimal (PyStr.format_04d c)) as [c' |]; [| discriminate].
  apply Z.eqb_eq in Hp. by subst.
Qed.



End Codes.

(** ** The encoder *)

Section EncoderFacts.
Variable float_repr : string -> string.


(** The items of a list or of a dict stand one per line, two spaces deeper
    than the bracket that closes them. *)
Lemma encode_list_layout level x xs :
  Json.encode float_repr 2 level (Json.PyList (x :: xs))
  = "[" +:+ Json.newline_indent 2 (S level)
    +:+ String.concat ("," +:+ Json.newline_indent 2 (S level))
          (List.map (Json.encode float_repr 2 (S level)) (x :: xs))
    +:+ Json.newline_indent 2 level +:+ "]".
Proof. reflexivity. Qed.

Lemma encode_dict_layout level kv kvs :
  Json.encode float_repr 2 level (Json.PyDict (kv :: kvs))
  = "{" +:+ Json.newline_indent 2 (S level)
    +:+ String.concat ("," +:+ Json.newline_indent 2 (S level))
          (List.map (fun kv => Json.encode_str (fst kv) +:+ ": "
                               +:+ Json.encode float_repr 2 (S level) (snd kv)) (kv :: kvs))
    +:+ Json.newline_indent 2 level +:+ "}".
Proof. reflexivity. Qed.

Lemma newline_indent_2 level :
  Json.newline_indent 2 level
  = String (Json.chr 10) (PyStr.repeat_char " " (2 * level)).
Proof. reflexivity. Qed.

End EncoderFacts.

(** ** The program on sample answers *)

Example format_04d_7 : PyStr.format_04d 7 = "0007".
Proof. reflexivity. Qed.

Example format_04d_9999 : PyStr.format_04d 9999 = "9999".
Proof. reflexivity. Qed.

Example loads_a1 : Json.loads body_a1 = Some (Json.PyDict [("a", Json.PyInt 1)]).
Proof. reflexivity. Qed.

Example loads_html : Json.loads "<h1>Not Found</h1>" = None.
Proof. reflexivity. Qed.

(** What [json.dump] writes for a nested value with a string outside ASCII,
    and reading it back. *)
Example dump_nested :
  Json.dump_indent2 literal_repr
    (Json.PyDict [("nome", Json.PyStr "Computação"); ("pre", Json.PyList [Json.PyInt 1; Json.PyNone])])
  = "{" +:+ String (Json.chr 10)
      ("  " +:+ String Json.dquote "nome" +:+ String Json.dquote ": "
       +:+ String Json.dquote "Computação" +:+ String Json.dquote ","
       +:+ String (Json.chr 10)
      ("  " +:+ String Json.dquote "pre" +:+ String Json.dquote ": ["
       +:+ String (Json.chr 10)
      ("    1," +:+ String (Json.chr 10)
      ("    null" +:+ String (Json.chr 10)
      ("  ]" +:+ String (Json.chr 10) "}"))))).
Proof. reflexivity. Qed.

Example dump_loads_nested :
  let data := Json.PyDict [("nome", Json.PyStr "Computação");
                           ("pre", Json.PyList [Json.PyInt 1; Json.PyNone])] in
  Json.loads (Json.dump_indent2 literal_repr data) = Some data.
Proof. reflexivity. Qed.

(** Status 200 with the body [{}] or [[]]: Absent, and no file. *)
Example empty_object_is_absent :
  let call := process_code (answer_all (ok_json "{}")) literal_repr 12 output_dir empty_world in
  fst call = Return ("0012", false) /\ files (snd call) = ∅.
Proof. split; reflexivity. Qed.

Example empty_array_is_absent :
  let call := process_code (answer_all (ok_json "[]")) literal_repr 12 output_dir empty_world in
  fst call = Return ("0012", false) /\ files (snd call) = ∅.
Proof. split; reflexivity. Qed.

(** Status 404: Absent, whatever the body, here a body that would be data. *)
Example status_404_is_absent :
  fst (fetch_course_data
         (answer_all (inr (MkResponse 404 [] body_a1))) "0012" empty_world)
  = Return Json.PyNone.
Proof. reflexivity. Qed.

(** A body that is not JSON: Absent, and nothing raised. *)
Example not_json_is_absent :
  fst (fetch_course_data (answer_all (ok_json "<html>")) "0012" empty_world)
  = Return Json.PyNone.
Proof. reflexivity. Qed.

(** A failure of the transport: Absent. *)
Example timeout_is_absent :
  fst (fetch_course_data (answer_all (inl Timeout)) "0012" empty_world)
  = Return Json.PyNone.
Proof. reflexivity. Qed.

(** ** The properties of the specification *)




(** C2, at the input where the code departs from it: a response of status
    200 whose body is the JSON text [null].  The transport has not failed,
    the status is 200 and the body parses, to a value that has no elements;
    the call returns neither [None] nor the parsed value: [len(data)] raises
    [TypeError], which the [except] clause does not list. *)
Theorem fetch_null_body_raises :
  let server := answer_all (ok_json "null") in
  server (request_for "0000") = ok_json "null"
  /\ Json.loads "null" = Some Json.PyNone
  /\ Json.has_elements Json.PyNone = false
  /\ fst (fetch_course_data server "0000" empty_world)
     = Raise (TypeError "object of type 'NoneType' has no len()")
  /\ (forall data, fst (fetch_course_data server "0000" empty_world) <> Return data).
Proof.
  vm_compute. repeat split; try reflexivity. intros data H. discriminate H.
Qed.

(** C3, at the input where the code departs from it: a response of status
    200 whose body is the JSON text [7], valid JSON of type number.
    [fetch_course_data] does not return: the [TypeError] of [len(data)]
    leaves it, goes through [process_code], which changes no counter, and
    reaches the [except Exception] of [main]. *)
Theorem fetch_number_body_propagates :
  let server := answer_all (ok_json "7") in
  let call := process_code server literal_repr 0 output_dir empty_world in
  Json.loads "7" = Some (Json.PyInt 7)
  /\ fst (fetch_course_data server "0000" empty_world)
     = Raise (TypeError "object of type 'int' has no len()")
  /\ fst call = Raise (TypeError "object of type 'int' has no len()")
  /\ successful (snd call) = 0
  /\ failed (snd call) = 0
  /\ stdout (snd (run_task server literal_repr 0 empty_world))
     = ["Error processing code: object of type 'int' has no len()"].
Proof.
  vm_compute. repeat split; reflexivity.
Qed.



(** C5, as stated, fails: [main] submits the code 9999, which is not in the
    half-open interval from 0 to 9999. *)
Lemma code_9999_is_submitted :
  9999 ∈ (code_num <$> futures (submit_all empty_world))
  /\ ~ (0 <= 9999 < 9999).
Proof.
  split; [| lia].
  unfold submit_all. cbn [futures]. rewrite <- list_fmap_compose.
  apply list_elem_of_fmap. exists 9999. split; [reflexivity |].
  apply elem_of_py_range. lia.
Qed.

(** C5, amended: the codes [main] submits are the integers of the half-open
    interval from 0 to 10,000, each one once and in increasing order, 9999
    being the last; each is rendered as a string of exactly four decimal
    digits, zero-padded on the left, that reads back as the code. *)
Theorem submitted_codes w :
  code_num <$> futures (submit_all w) = PyStr.py_range 10000
  /\ (forall c, c ∈ (code_num <$> futures (submit_all w)) <-> 0 <= c < 10000)
  /\ (forall i c, (code_num <$> futures (submit_all w)) !! i = Some c -> c = Z.of_nat i)
  /\ (forall c, 0 <= c < 10000 ->
        String.length (PyStr.format_04d c) = 4%nat
        /\ all_digits (PyStr.format_04d c) = true
        /\ PyStr.parse_decimal (PyStr.format_04d c) = Some c).
Proof.
  assert (code_num <$> futures (submit_all w) = PyStr.py_range 10000) as Hcodes.
  { unfold submit_all. cbn [futures]. rewrite <- list_fmap_compose. apply list_fmap_id. }
  rewrite Hcodes. split; [reflexivity |]. split; [| split].
  - intros c. apply elem_of_py_range.
  - intros i c Hi. unfold PyStr.py_range in Hi. rewrite list_lookup_fmap in Hi.
    destruct (seq 0 (Z.to_nat 10000) !! i) as [k |] eqn:Hk; [| discriminate].
    apply lookup_seq in Hk as [-> _]. by injection Hi as <-.
  - intros c Hc. by apply format_04d_roundtrip.
Qed.

Lemma submitted_codes_witness :
  String.length (PyStr.format_04d 42) = 4%nat
  /\ all_digits (PyStr.format_04d 42) = true
  /\ PyStr.parse_decimal (PyStr.format_04d 42) = Some 42.
Proof.
  apply (proj2 (proj2 (proj2 (submitted_codes empty_world))) 42). lia.
Defined.

(** C6: when a code is classified Absent, [process_code] prints a progress
    line exactly when [code_num % 100 == 0], whatever the counters and the
    lines printed before: the line shows the code and the two counters, and
    for any other code nothing is printed. *)
Theorem progress_line_gate server float_repr code_num dir w :
  fst (fetch_course_data server (PyStr.format_04d code_num) w) = Return Json.PyNone ->
  let w' := snd (process_code server float_repr code_num dir w) in
  stdout w'
  = (stdout w ++ (if code_num mod 100 =? 0
                  then [progress_line (PyStr.format_04d code_num) (successful w) (failed w + 1)]
                  else []))%list
  /\ (length (stdout w') = S (length (stdout w)) <-> code_num mod 100 = 0)
  /\ (stdout w' = stdout w <-> code_num mod 100 <> 0).
Proof.
  intros Hf w'. rewrite fetch_course_data_eq in Hf. cbn [fst] in Hf.
  pose proof (process_code_absent server float_repr code_num dir w Hf) as Hp.
  cbv zeta in Hp. unfold w'. rewrite Hp. clear Hp.
  assert (forall line w1, stdout (put_line line w1) = (stdout w1 ++ [line])%list) as Hline
    by reflexivity.
  assert (stdout (set_failed (failed w + 1)
                    (put_request (request_for (PyStr.format_04d code_num)) w)) = stdout w)
    as Hsame by reflexivity.
  destruct (Z.eqb_spec (code_num mod 100) 0) as [Hz | Hnz]; cbn [snd].
  - rewrite Hline, Hsame. split; [reflexivity |]. split.
    + rewrite length_app. cbn [length]. split; [auto | lia].
    + split; [| contradiction].
      intros Heq. apply (f_equal (@length string)) in Heq.
      rewrite length_app in Heq. cbn [length] in Heq. lia.
  - rewrite Hsame, app_nil_r. split; [reflexivity |]. split.
    + split; [lia | contradiction].
    + split; auto.
Qed.

Lemma progress_line_gate_witness :
  stdout (snd (process_code (answer_all not_found) literal_repr 300 output_dir empty_world))
  = ["✗ Progress: 0300 (Success: 0, Failed: 1)"]
  /\ stdout (snd (process_code (answer_all not_found) literal_repr 301 output_dir empty_world))
     = [].
Proof.
  split.
  - exact (proj1 (progress_line_gate (answer_all not_found) literal_repr 300 output_dir
                    empty_world eq_refl)).
  - exact (proj1 (progress_line_gate (answer_all not_found) literal_repr 301 output_dir
                    empty_world eq_refl)).
Defined.

(** C7: for every integer from 0 to 9999 the rendered code has exactly four
    characters, all of them decimal digits, and decimal parsing gives the
    integer back. *)
Theorem code_render_parse_roundtrip c :
  0 <= c <= 9999 ->
  String.length (PyStr.format_04d c) = 4%nat
  /\ all_digits (PyStr.format_04d c) = true
  /\ PyStr.parse_decimal (PyStr.format_04d c) = Some c.
Proof.
  intros Hc. apply format_04d_roundtrip. lia.
Qed.

Lemma code_render_parse_roundtrip_witness :
  String.length (PyStr.format_04d 7) = 4%nat
  /\ all_digits (PyStr.format_04d 7) = true
  /\ PyStr.parse_decimal (PyStr.format_04d 7) = Some 7.
Proof.
  apply (code_render_parse_roundtrip 7). lia.
Defined.


(** A call that the fetch leaves by an exception raises it again and changes
    no counter. *)
Lemma raising_call_changes_no_counter server float_repr code_num dir w e :
  fst (fetch_course_data server (PyStr.format_04d code_num) w) = Raise e ->
  let call := process_code server float_repr code_num dir w in
  fst call = Raise e
  /\ successful (snd call) = successful w
  /\ failed (snd call) = failed w.
Proof.
  intros Hf call. rewrite fetch_course_data_eq in Hf. cbn [fst] in Hf. unfold call.
  rewrite (process_code_raise server float_repr code_num dir w e Hf).
  repeat split; reflexivity.
Qed.



(** C9: [fetch_course_data] changes nothing but the network: for every code
    and every world, the two counters, the directories, the files and the
    lines printed are after the call what they were before it, and the one
    effect is the one request sent, for that code, with the timeout of 10. *)
Theorem fetch_has_no_side_effect server code w :
  let w' := snd (fetch_course_data server code w) in
  successful w' = successful w
  /\ failed w' = failed w
  /\ dirs w' = dirs w
  /\ files w' = files w
  /\ stdout w' = stdout w
  /\ network w' = (network w ++ [MkRequest (request_url code) (request_headers code) 10])%list.
Proof.
  rewrite fetch_course_data_eq. simpl. repeat split; reflexivity.
Qed.



(** ** Lists of futures *)

Section Lists.

Lemma NoDup_py_range n : NoDup (PyStr.py_range n).
Proof.
  unfold PyStr.py_range. apply NoDup_fmap_2; [| apply NoDup_seq].
  intros a b Hab. lia.
Qed.

Lemma mjoin_fmap_insert {A B} (f : A -> list B) (l : list A) i x y :
  l !! i = Some x ->
  mjoin (f <$> <[i := y]> l) ++ f x ≡ₚ mjoin (f <$> l) ++ f y.
Proof.
  revert i. induction l as [| a l IH]; intros [| i] Hi; simpl in *; try discriminate.
  - injection Hi as ->.
    etrans; [apply Permutation_app_comm |].
    etrans; [| apply Permutation_app_comm].
    apply Permutation_app_swap_app.
  - rewrite <- !app_assoc. apply Permutation_app_head, IH, Hi.
Qed.

Lemma fmap_insert_same {A B} (f : A -> B) (l : list A) i x y :
  l !! i = Some x -> f y = f x -> f <$> <[i := y]> l = f <$> l.
Proof.
  intros Hi Hf. rewrite list_fmap_insert, Hf. apply list_insert_id.
  by rewrite list_lookup_fmap, Hi.
Qed.

Lemma sum_list_with_insert_same {A} (f : A -> nat) (l : list A) i x y :
  l !! i = Some x -> f y = f x ->
  sum_list_with f (<[i := y]> l) = sum_list_with f l.
Proof.
  intros Hi Hf. pose proof (sum_list_with_insert f l i x y Hi) as Hs.
  revert Hs. rewrite Hf.
  generalize (sum_list_with f (<[i := y]> l)), (sum_list_with f l), (f x).
  intros; lia.
Qed.

End Lists.

(** ** The pool: requests, lines and files *)

Section Trace.
Variable server : Request -> transport_error + Response.
Variable float_repr : string -> string.

Lemma files_inv_same w0 (l : list future) i x y fs :
  l !! i = Some x ->
  code_num y = code_num x ->
  has_written y = has_written x ->
  files_inv server float_repr w0 l fs ->
  files_inv server float_repr w0 (<[i := y]> l) fs.
Proof.
  intros Hi Hcode Hwr [Hwritten Huntouched].
  assert (i < length l)%nat as Hlen by (by eapply lookup_lt_Some).
  split.
  - intros j fut Hj Hw. destruct (decide (j = i)) as [-> | Hne].
    + rewrite list_lookup_insert_eq in Hj by exact Hlen. injection Hj as <-.
      rewrite Hcode. apply (Hwritten i x Hi). by rewrite <- Hwr.
    + rewrite list_lookup_insert_ne in Hj by auto. by apply (Hwritten j).
  - intros path Hall. apply Huntouched. intros j fut Hj Hw.
    destruct (decide (j = i)) as [-> | Hne].
    + assert (fut = x) as -> by congruence. rewrite <- Hcode.
      apply (Hall i y); [by apply list_lookup_insert_eq | by rewrite Hwr].
    + apply (Hall j fut); [by rewrite list_lookup_insert_ne | exact Hw].
Qed.

Lemma files_inv_write w0 (l : list future) i x y fs f :
  l !! i = Some x ->
  code_num y = code_num x ->
  has_written x = false ->
  has_written y = true ->
  NoDup (code_num <$> l) ->
  saved_file server float_repr (code_num x) = Some f ->
  files_inv server float_repr w0 l fs ->
  files_inv server float_repr w0 (<[i := y]> l) (<[code_path (code_num x) := f]> fs).
Proof.
  intros Hi Hcode Hx Hy Hnodup Hf [Hwritten Huntouched].
  assert (i < length l)%nat as Hlen by (by eapply lookup_lt_Some).
  split.
  - intros j fut Hj Hw. destruct (decide (j = i)) as [-> | Hne].
    + rewrite list_lookup_insert_eq in Hj by exact Hlen. injection Hj as <-.
      rewrite Hcode, lookup_insert_eq. by rewrite Hf.
    + rewrite list_lookup_insert_ne in Hj by auto.
      rewrite lookup_insert_ne; [by apply (Hwritten j) |].
      intros Hpath. apply json_path_inj in Hpath.
      apply Hne. apply (NoDup_lookup _ j i (code_num fut) Hnodup).
      * by rewrite list_lookup_fmap, Hj.
      * rewrite list_lookup_fmap, Hi. simpl. by rewrite Hpath.
  - intros path Hall.
    assert (code_path (code_num x) <> path) as Hne.
    { rewrite <- Hcode. apply (Hall i y); [by apply list_lookup_insert_eq | exact Hy]. }
    rewrite lookup_insert_ne by exact Hne. apply Huntouched.
    intros j fut Hj Hw. destruct (decide (j = i)) as [-> | Hji].
    + assert (fut = x) as -> by congruence. congruence.
    + apply (Hall j fut); [by rewrite list_lookup_insert_ne | exact Hw].
Qed.

(** The world after each step of a task. *)
Lemma task_step_pending c dir w :
  task_step server float_repr c dir Pending w
  = (match fetch_result server (PyStr.format_04d c) with
     | Return data => Fetched (PyStr.format_04d c) data
     | Raise e => Done (Raise e)
     end,
     put_request (request_for (PyStr.format_04d c)) w).
Proof.
  unfold task_step. rewrite fetch_course_data_eq.
  destruct (fetch_result server (PyStr.format_04d c)); reflexivity.
Qed.

Lemma task_step_fetched c dir code data w :
  task_step server float_repr c dir (Fetched code data) w
  = if is_not_None data then
      (Saved code (json_path dir code),
       put_file (json_path dir code)
         (MkFile "utf-8" (Json.dump_indent2 float_repr data)) w)
    else
      (Done (Return (code, false)),
       if c mod 100 =? 0
       then put_line (progress_line code (successful w) (failed w + 1))
              (set_failed (failed w + 1) w)
       else set_failed (failed w + 1) w).
Proof.
  unfold task_step. destruct (is_not_None data); [reflexivity |].
  unfold count_failure, with_lock, bind. cbn.
  destruct (c mod 100 =? 0); reflexivity.
Qed.

Lemma task_step_saved c dir code filename w :
  task_step server float_repr c dir (Saved code filename) w
  = (Done (Return (code, true)),
     put_line (success_line code filename) (set_successful (successful w + 1) w)).
Proof. reflexivity. Qed.

Lemma sent_started (fut : future) c t b :
  fut = MkFuture c t b -> t <> Pending ->
  sent fut = [request_for (PyStr.format_04d c)].
Proof. intros -> Ht. destruct t; [contradiction | reflexivity ..]. Qed.

Lemma length_put_line line w :
  length (stdout (put_line line w)) = S (length (stdout w)).
Proof. unfold put_line. cbn [stdout]. rewrite length_app. simpl. lia. Qed.

(** A step of a task keeps the invariant. *)
Lemma task_step_trace_inv codes w0 p i c t :
  futures p !! i = Some (MkFuture c t false) ->
  is_done t = false ->
  pool_inv server codes p -> NoDup codes ->
  trace_inv server float_repr w0 p ->
  trace_inv server float_repr w0
    (MkPool
       (<[i := MkFuture c (fst (task_step server float_repr c output_dir t (world p))) false]>
          (futures p))
       (snd (task_step server float_repr c output_dir t (world p)))).
Proof.
  intros Hi Hnotdone [Hcodes Hcons _ _] Hnodup [Hcol Hnet Hout Hlines Hdirs Hfiles].
  pose proof (proj1 (Forall_lookup _ _) Hcons i _ Hi) as Hfut.
  rewrite <- Hcodes in Hnodup.
  destruct t as [| code data | code filename | outcome]; [| | | discriminate].
  - (* the fetch *)
    rewrite task_step_pending. cbn [fst snd].
    set (t' := match fetch_result server (PyStr.format_04d c) with
               | Return data => Fetched (PyStr.format_04d c) data
               | Raise e => Done (Raise e)
               end).
    assert (t' <> Pending) as Hstarted.
    { unfold t'. destruct (fetch_result server (PyStr.format_04d c)); discriminate. }
    split; cbn [futures world].
    + apply Forall_insert; [exact Hcol | discriminate].
    + pose proof (mjoin_fmap_insert sent (futures p) i _ (MkFuture c t' false) Hi) as Hperm.
      rewrite (sent_started _ c t' false eq_refl Hstarted) in Hperm.
      change (sent (MkFuture c Pending false)) with (@nil Request) in Hperm.
      rewrite app_nil_r in Hperm. rewrite Hperm.
      unfold put_request. cbn [network]. rewrite Hnet. by rewrite app_assoc.
    + exact Hout.
    + rewrite (sum_list_with_insert_same lines_printed (futures p) i _ _ Hi); [exact Hlines |].
      unfold t', lines_printed. cbn [state collected].
      destruct (fetch_result server (PyStr.format_04d c)); reflexivity.
    + exact Hdirs.
    + apply (files_inv_same w0 (futures p) i _ _ _ Hi); [reflexivity | | exact Hfiles].
      unfold t', has_written. cbn [state].
      destruct (fetch_result server (PyStr.format_04d c)); reflexivity.
  - (* after the fetch: the file, or the failure *)
    unfold consistent in Hfut. cbn [state code_num] in Hfut. destruct Hfut as [-> Hfetch].
    rewrite task_step_fetched. destruct (is_not_None data) eqn:Hdata; cbn [fst snd].
    + split; cbn [futures world].
      * apply Forall_insert; [exact Hcol | discriminate].
      * rewrite (fmap_insert_same sent (futures p) i _ _ Hi); [exact Hnet | reflexivity].
      * exact Hout.
      * rewrite (sum_list_with_insert_same lines_printed (futures p) i _ _ Hi);
          [exact Hlines | reflexivity].
      * exact Hdirs.
      * apply (files_inv_write w0 (futures p) i _ _ _ _ Hi);
          [reflexivity | reflexivity | reflexivity | exact Hnodup | | exact Hfiles].
        unfold saved_file. cbn [code_num]. by rewrite Hfetch, Hdata.
    + pose proof (sum_list_with_insert lines_printed (futures p) i _
                    (MkFuture c (Done (Return (PyStr.format_04d c, false))) false) Hi) as Hsum.
      change (lines_printed (MkFuture c (Fetched (PyStr.format_04d c) data) false))
        with 0%nat in Hsum.
      change (lines_printed (MkFuture c (Done (Return (PyStr.format_04d c, false))) false))
        with (if c mod 100 =? 0 then 1%nat else 0%nat) in Hsum.
      split; cbn [futures world].
      * apply Forall_insert; [exact Hcol | discriminate].
      * rewrite (fmap_insert_same sent (futures p) i _ _ Hi); [| reflexivity].
        destruct (c mod 100 =? 0); exact Hnet.
      * destruct Hout as [printed Hout]. destruct (c mod 100 =? 0).
        -- eexists. unfold put_line. cbn [stdout set_failed].
           rewrite Hout, <- app_assoc. reflexivity.
        -- by exists printed.
      * revert Hsum.
        generalize (sum_list_with lines_printed
                      (<[i := MkFuture c (Done (Return (PyStr.format_04d c, false))) false]>
                         (futures p))).
        intros n Hsum. destruct (c mod 100 =? 0).
        -- rewrite length_put_line. change (stdout (set_failed _ ?w)) with (stdout w).
           rewrite Hlines. lia.
        -- change (stdout (set_failed _ ?w)) with (stdout w). rewrite Hlines. lia.
      * destruct (c mod 100 =? 0); exact Hdirs.
      * apply (files_inv_same w0 (futures p) i _ _ _ Hi);
          [reflexivity | reflexivity |].
        destruct (c mod 100 =? 0); exact Hfiles.
  - (* the count of a success *)
    rewrite task_step_saved. cbn [fst snd].
    pose proof (sum_list_with_insert lines_printed (futures p) i _
                  (MkFuture c (Done (Return (code, true))) false) Hi) as Hsum.
    change (lines_printed (MkFuture c (Saved code filename) false)) with 0%nat in Hsum.
    change (lines_printed (MkFuture c (Done (Return (code, true))) false)) with 1%nat in Hsum.
    split; cbn [futures world].
    + apply Forall_insert; [exact Hcol | discriminate].
    + rewrite (fmap_insert_same sent (futures p) i _ _ Hi); [exact Hnet | reflexivity].
    + destruct Hout as [printed Hout]. eexists.
      unfold put_line. cbn [stdout set_successful]. rewrite Hout, <- app_assoc. reflexivity.
    + rewrite length_put_line. change (stdout (set_successful _ ?w)) with (stdout w).
      revert Hsum.
      generalize (sum_list_with lines_printed
                    (<[i := MkFuture c (Done (Return (code, true))) false]> (futures p))).
      intros n Hsum. rewrite Hlines. lia.
    + exact Hdirs.
    + apply (files_inv_same w0 (futures p) i _ _ _ Hi);
        [reflexivity | reflexivity | exact Hfiles].
Qed.

(** The main thread collecting a future keeps the invariant. *)
Lemma collect_trace_inv w0 p i c outcome :
  futures p !! i = Some (MkFuture c (Done outcome) false) ->
  trace_inv server float_repr w0 p ->
  trace_inv server float_repr w0
    (MkPool (<[i := MkFuture c (Done outcome) true]> (futures p))
       (snd (collect outcome (world p)))).
Proof.
  intros Hi [Hcol Hnet Hout Hlines Hdirs Hfiles].
  pose proof (sum_list_with_insert lines_printed (futures p) i _
                (MkFuture c (Done outcome) true) Hi) as Hsum.
  split; cbn [futures world].
  - apply Forall_insert; [exact Hcol | reflexivity].
  - rewrite (fmap_insert_same sent (futures p) i _ _ Hi); [| reflexivity].
    destruct outcome; exact Hnet.
  - destruct Hout as [printed Hout]. destruct outcome as [r | e].
    + by exists printed.
    + eexists. cbn [collect]. unfold print, modify, put_line. cbn [snd stdout].
      rewrite Hout, <- app_assoc. reflexivity.
  - revert Hsum.
    generalize (sum_list_with lines_printed
                  (<[i := MkFuture c (Done outcome) true]> (futures p))).
    intros n Hsum. destruct outcome as [[code []] | e].
    + change (lines_printed (MkFuture c (Done (Return (code, true))) false))
        with 1%nat in Hsum.
      change (lines_printed (MkFuture c (Done (Return (code, true))) true))
        with 1%nat in Hsum.
      cbn [collect ret snd]. rewrite Hlines. lia.
    + change (lines_printed (MkFuture c (Done (Return (code, false))) false))
        with (if c mod 100 =? 0 then 1%nat else 0%nat) in Hsum.
      change (lines_printed (MkFuture c (Done (Return (code, false))) true))
        with (if c mod 100 =? 0 then 1%nat else 0%nat) in Hsum.
      cbn [collect ret snd]. rewrite Hlines. lia.
    + change (lines_printed (MkFuture c (Done (Raise e)) false)) with 0%nat in Hsum.
      change (lines_printed (MkFuture c (Done (Raise e)) true)) with 1%nat in Hsum.
      cbn [collect]. unfold print, modify. cbn [snd].
      rewrite length_put_line, Hlines. lia.
  - destruct outcome; exact Hdirs.
  - apply (files_inv_same w0 (futures p) i _ _ _ Hi); [reflexivity | reflexivity |].
    destruct outcome; exact Hfiles.
Qed.

Lemma step_trace_inv codes w0 p p' :
  step server float_repr output_dir p p' ->
  pool_inv server codes p -> NoDup codes ->
  trace_inv server float_repr w0 p ->
  trace_inv server float_repr w0 p'.
Proof.
  intros [i [c t b] Hi Hnotdone | i [c t b] outcome Hi Hst Hb] Hinv Hnodup Htrace;
    cbn [code_num state collected] in *.
  - assert (b = false) as ->.
    { pose proof (proj1 (Forall_lookup _ _) (trace_collected _ _ _ _ Htrace) i _ Hi) as Hc.
      cbn [collected state] in Hc. destruct b; [| reflexivity].
      rewrite Hc in Hnotdone; [discriminate | reflexivity]. }
    by eapply task_step_trace_inv.
  - subst t b. by apply collect_trace_inv.
Qed.

Lemma steps_trace_inv codes w0 p p' :
  rtc (step server float_repr output_dir) p p' ->
  pool_inv server codes p -> NoDup codes ->
  trace_inv server float_repr w0 p ->
  trace_inv server float_repr w0 p'.
Proof.
  induction 1 as [| p q r Hpq _ IH]; [trivial |].
  intros Hinv Hnodup Htrace. apply IH; [| exact Hnodup |].
  - eapply step_pool_inv; eassumption.
  - eapply step_trace_inv; eassumption.
Qed.

(** The pool [main] builds: nothing sent, printed or written yet. *)
Lemma submit_all_trace_inv w : trace_inv server float_repr w (submit_all w).
Proof.
  unfold submit_all. generalize (PyStr.py_range 10000). intros l.
  split; cbn [futures world].
  - apply Forall_fmap, Forall_true. intros c. discriminate.
  - assert (mjoin (sent <$> ((fun c => MkFuture c Pending false) <$> l)) = []) as ->.
    { induction l as [| c l IH]; [reflexivity | exact IH]. }
    by rewrite app_nil_r.
  - exists []. by rewrite app_nil_r.
  - assert (sum_list_with lines_printed ((fun c => MkFuture c Pending false) <$> l) = 0%nat)
      as ->.
    { induction l as [| c l IH]; [reflexivity | exact IH]. }
    lia.
  - reflexivity.
  - split.
    + intros i fut Hi Hw. rewrite list_lookup_fmap in Hi.
      destruct (l !! i); [| discriminate]. injection Hi as <-. discriminate Hw.
    + reflexivity.
Qed.

End Trace.

(** ** What a run leaves behind *)

Section RunTrace.
Variable server : Request -> transport_error + Response.
Variable float_repr : string -> string.
Variable cpu_count : Z.

(** The pool at the end of a run, with all that is known of it. *)
Lemma main_run_pool w0 w :
  main_run server float_repr cpu_count w0 w ->
  exists p,
    all_collected p
    /\ pool_inv server (PyStr.py_range 10000) p
    /\ trace_inv server float_repr (snd (main_prologue cpu_count w0)) p
    /\ w = snd (main_epilogue (world p)).
Proof.
  intros (p & Hsteps & Hall & ->). exists p.
  destruct (main_prologue_counters cpu_count w0) as [Hs0 Hf0].
  pose proof (submit_all_inv server (snd (main_prologue cpu_count w0)) Hs0 Hf0) as Hinv0.
  split; [exact Hall |]. split; [by eapply steps_pool_inv |]. split; [| reflexivity].
  eapply steps_trace_inv; [exact Hsteps | exact Hinv0 | apply NoDup_py_range |].
  apply submit_all_trace_inv.
Qed.

Lemma sent_when_done (futs : list future) :
  Forall done_collected futs ->
  mjoin (sent <$> futs)
  = (fun c => request_for (PyStr.format_04d c)) <$> (code_num <$> futs).
Proof.
  induction 1 as [| [c t b] futs [Hd _] _ IH]; [reflexivity |].
  destruct t as [| | | outcome]; try discriminate Hd. rewrite !fmap_cons.
  change (mjoin (sent (MkFuture c (Done outcome) b) :: (sent <$> futs)))
    with (sent (MkFuture c (Done outcome) b) ++ mjoin (sent <$> futs))%list.
  rewrite IH. reflexivity.
Qed.








Lemma main_prologue_world w0 :
  snd (main_prologue cpu_count w0)
  = MkWorld 0 0 ({[output_dir]} ∪ dirs w0) (files w0)
      (stdout w0 ++ ["Starting to fetch course data from 0000 to 9999...";
                     "Output directory: " +:+ output_dir +:+ "/";
                     "Using " +:+ PyStr.str_of_int cpu_count +:+ " threads";
                     PyStr.repeat_char "-" 50])
      (network w0).
Proof.
  unfold main_prologue, bind, print, os_makedirs, modify, put_line, add_dir,
    set_successful, set_failed.
  cbn [fst snd successful failed dirs files stdout network].
  rewrite <- !app_assoc. reflexivity.
Qed.

Lemma main_epilogue_fields w :
  successful (snd (main_epilogue w)) = successful w
  /\ failed (snd (main_epilogue w)) = failed w
  /\ dirs (snd (main_epilogue w)) = dirs w
  /\ files (snd (main_epilogue w)) = files w
  /\ network (snd (main_epilogue w)) = network w.
Proof. rewrite main_epilogue_world. repeat split; reflexivity. Qed.




End RunTrace.

(** ** Further properties of the script *)

(** X1: a run sends one request for each code from 0000 to 9999 and no
    other: whatever the answers and the interleaving, the requests sent are,
    up to their order, the 10,000 requests of the codes, each once (nothing is
    retried), after those the world had seen before. *)
Theorem one_request_per_code server float_repr cpu_count w0 w :
  main_run server float_repr cpu_count w0 w ->
  network w ≡ₚ network w0 ++ ((fun c => request_for (PyStr.format_04d c)) <$> PyStr.py_range 10000)
  /\ Z.of_nat (length (network w)) = Z.of_nat (length (network w0)) + 10000.
Proof.
  intros Hrun.
  destruct (main_run_pool server float_repr cpu_count w0 w Hrun)
    as (p & Hall & [Hcodes Hcons _ _] & Htrace & ->).
  destruct (main_epilogue_fields (world p)) as (_ & _ & _ & _ & ->).
  pose proof (trace_network _ _ _ _ Htrace) as Hnet.
  rewrite (sent_when_done (futures p) Hall), Hcodes, main_prologue_world in Hnet.
  cbn [network] in Hnet. split; [exact Hnet |].
  rewrite Hnet, length_app, length_fmap, Nat2Z.inj_add, length_py_range; lia.
Qed.

Lemma one_request_per_code_witness :
  Z.of_nat (length (network (snd (main (answer_all not_found) literal_repr 8 empty_world))))
  = 10000.
Proof.
  exact (proj2 (one_request_per_code (answer_all not_found) literal_repr 8 empty_world _
                  (main_is_a_run (answer_all not_found) literal_repr 8 empty_world))).
Defined.










(** X7: the rendering [f"{code_num:04d}"] loses nothing, for any integer and
    not only for the codes of a run: it has at least four characters, it
    reads back as the integer by decimal parsing, and so two different
    integers never have the same rendering. *)
Theorem format_04d_faithful :
  (forall n, (4 <= String.length (PyStr.format_04d n))%nat)
  /\ (forall n, PyStr.parse_decimal (PyStr.format_04d n) = Some n)
  /\ (forall n m, PyStr.format_04d n = PyStr.format_04d m -> n = m).
Proof.
  split; [apply format_04d_length |]. split; [apply format_04d_parse |].
  intros n m Heq. pose proof (format_04d_parse n) as Hn.
  rewrite Heq, format_04d_parse in Hn. by injection Hn.
Qed.

Lemma format_04d_faithful_witness :
  PyStr.parse_decimal (PyStr.format_04d (-12)) = Some (-12) /\ 12345 = 12345.
Proof.
  split.
  - exact (proj1 (proj2 format_04d_faithful) (-12)).
  - exact (proj2 (proj2 format_04d_faithful) 12345 12345 eq_refl).
Defined.

(** X8: two different codes never share a file: for every directory and any
    two integers, the paths [os.path.join(output_dir, f"{code}.json")] of
    their renderings differ, so a task can only write the file of its own
    code. *)
Theorem distinct_codes_distinct_files dir c1 c2 :
  c1 <> c2 ->
  os_path_join dir (PyStr.format_04d c1 +:+ ".json")
  <> os_path_join dir (PyStr.format_04d c2 +:+ ".json").
Proof.
  intros Hne Heq. apply Hne. by apply (json_path_inj dir).
Qed.

Lemma distinct_codes_distinct_files_witness :
  os_path_join "json" (PyStr.format_04d 7 +:+ ".json")
  <> os_path_join "json" (PyStr.format_04d 70 +:+ ".json").
Proof.
  apply (distinct_codes_distinct_files "json" 7 70). lia.
Defined.


(** X10: [fetch_course_data] never hands on an empty document: a value it
    returns is [None] or has at least one element, so it is never [{}],
    [[]], the empty string or a number, and [data is not None] in
    [process_code] means that there is something to save. *)
Theorem fetch_returns_none_or_elements server code w data :
  fst (fetch_course_data server code w) = Return data ->
  (data = Json.PyNone \/ Json.has_elements data = true)
  /\ (is_not_None data = true <-> Json.has_elements data = true).
Proof.
  rewrite fetch_course_data_eq. cbn [fst]. intros Hf.
  destruct (fetch_result_Return server code data Hf) as [-> | He].
  - split; [by left |]. split; discriminate.
  - split; [by right |]. split; [by intros _ | intros _; by apply has_elements_not_None].
Qed.

Lemma fetch_returns_none_or_elements_witness :
  (Json.PyDict [("a", Json.PyInt 1)] = Json.PyNone
   \/ Json.has_elements (Json.PyDict [("a", Json.PyInt 1)]) = true)
  /\ (is_not_None (Json.PyDict [("a", Json.PyInt 1)]) = true
      <-> Json.has_elements (Json.PyDict [("a", Json.PyInt 1)]) = true).
Proof.
  exact (fetch_returns_none_or_elements (answer_all (ok_json body_a1)) "0001" empty_world
           (Json.PyDict [("a", Json.PyInt 1)]) eq_refl).
Defined.




